(** * A shallow embedding of [app.py]

    [app.py] is a Streamlit script: a sidebar (API key, CSV upload, reset
    button), a chat transcript kept in [st.session_state], a LangChain
    pandas agent wrapped in [RunnableWithMessageHistory], and Matplotlib
    figures attached to the answers.

    The embedding keeps the shape of the script.  Every Python object that
    the script shares by reference (the chat histories held by [store], the
    Matplotlib figures, the DataFrame) lives in a heap of the [World] and is
    named by its index, so that aliasing is visible.  Python statements are
    computations in a state-and-exception monad [M]; [try]/[except Exception]
    is [try_except].  What the script delegates (pandas' CSV reader, the
    Gemini client, the agent that answers a question, the clock, the widgets)
    is an input: the record [Env] and the record [Inputs]. *)

From stdpp Require Import base option list strings gmap.

Local Open Scope string_scope.
Local Open Scope list_scope.

(** ** Data *)

(** A raised Python exception that is an instance of [Exception] (what
    [except Exception] catches); [exn_text] is [str(e)]. *)
Record Exception := Exc { exn_class : string; exn_text : string }.

(** Identity of a [matplotlib.figure.Figure], of an
    [InMemoryChatMessageHistory] and of a [pd.DataFrame]: the index of the
    object in its heap. *)
Abbreviation FigureRef := nat.
Abbreviation HistoryRef := nat.
Abbreviation FrameRef := nat.

(** [langchain_core.messages]: [message.type] is ["human"] or ["ai"];
    [additional_kwargs] is a dict, in which the script only ever uses the
    key ["plot"], bound to a Figure object. *)
Inductive MessageType := human | ai.

Record Message := mkMessage {
  mtype : MessageType;
  content : string;
  additional_kwargs : gmap string FigureRef
}.

Definition HumanMessage (c : string) : Message := mkMessage human c ∅.
Definition AIMessage (c : string) (kw : gmap string FigureRef) : Message :=
  mkMessage ai c kw.

Definition type_name (t : MessageType) : string :=
  match t with human => "human" | ai => "ai" end.

(** A DataFrame, as far as the script looks at it: a header and rows. *)
Record DataFrame := mkFrame {
  columns : list string;
  rows : list (list string)
}.

(** [df.head()]: a new frame holding the first five rows. *)
Definition head (d : DataFrame) : DataFrame :=
  mkFrame (columns d) (take 5 (rows d)).

Record UploadedFile := mkFile { file_name : string; file_bytes : string }.

(** [st.session_state]: the three keys the script uses; [None] is an
    absent key. *)
Record SessionState := mkSession {
  messages : option (list Message);
  session_id : option string;
  df_loaded : option bool
}.

(** Matplotlib.  A figure holds axes, an axes holds what was drawn on it.
    [pyplot] keeps a registry of the open figures; the current figure is the
    most recently activated one, here the last of [open_figs].  A Figure
    object outlives its entry in the registry. *)
Abbreviation Axes := (list string).
Abbreviation Figure := (list (list string)).

Record Pyplot := mkPyplot {
  fig_heap : list Figure;
  open_figs : list FigureRef
}.

(** What the page shows, in order. *)
Inductive Element :=
| st_title (s : string)
| st_write (s : string)
| st_header (s : string)
| st_error (s : string)
| st_success (s : string)
| st_warning (s : string)
| st_info (s : string)
| st_markdown (s : string)
| st_chat_message (role : string)
| st_pyplot (f : FigureRef) (shown : Figure)
| st_dataframe (d : DataFrame)
| st_button (label : string)
| st_text_input (label : string)
| st_file_uploader (label : string).

(** The calls the script makes to the services it delegates to, in order. *)
Inductive Call :=
| call_read_csv (f : UploadedFile)
| call_ChatGoogleGenerativeAI (key : string)
| call_create_pandas_dataframe_agent (df : FrameRef)
| call_invoke (sid : string) (input : string).

(** The state of the process.  [store] is the module-level dict of the
    script; [histories], [plt] and [frames] are the objects it and the
    libraries hold. *)
Record World := mkWorld {
  session_state : SessionState;
  store : gmap string HistoryRef;
  histories : list (list Message);
  plt : Pyplot;
  frames : list DataFrame;
  ui : list Element;
  calls : list Call
}.

(** ** The state-and-exception monad *)

Definition M (A : Type) : Type := World → (Exception + A) * World.

Definition ret {A} (a : A) : M A := λ w, (inr a, w).

Definition bind {A B} (m : M A) (k : A → M B) : M B :=
  λ w, match m w with
       | (inr a, w') => k a w'
       | (inl e, w') => (inl e, w')
       end.

Definition raise {A} (e : Exception) : M A := λ w, (inl e, w).

(** [try: body except Exception as e: handler e]; what [body] did to the
    world before raising stays done. *)
Definition try_except {A} (body : M A) (handler : Exception → M A) : M A :=
  λ w, match body w with
       | (inr a, w') => (inr a, w')
       | (inl e, w') => handler e w'
       end.

Definition get_world : M World := λ w, (inr w, w).
Definition modify (f : World → World) : M unit := λ w, (inr tt, f w).

(** stdpp's monad notation: [x ← m; k] and [m;; k]. *)
#[global] Instance M_ret : MRet M := @ret.
#[global] Instance M_bind : MBind M := λ A B k m, bind m k.

(** Field updates of the world. *)
Definition set_session_state (s : SessionState) (w : World) : World :=
  mkWorld s (store w) (histories w) (plt w) (frames w) (ui w) (calls w).
Definition set_store (s : gmap string HistoryRef) (w : World) : World :=
  mkWorld (session_state w) s (histories w) (plt w) (frames w) (ui w) (calls w).
Definition set_histories (h : list (list Message)) (w : World) : World :=
  mkWorld (session_state w) (store w) h (plt w) (frames w) (ui w) (calls w).
Definition set_plt (p : Pyplot) (w : World) : World :=
  mkWorld (session_state w) (store w) (histories w) p (frames w) (ui w) (calls w).
Definition set_frames (f : list DataFrame) (w : World) : World :=
  mkWorld (session_state w) (store w) (histories w) (plt w) f (ui w) (calls w).
Definition set_ui (u : list Element) (w : World) : World :=
  mkWorld (session_state w) (store w) (histories w) (plt w) (frames w) u (calls w).
Definition set_calls (c : list Call) (w : World) : World :=
  mkWorld (session_state w) (store w) (histories w) (plt w) (frames w) (ui w) c.

(** A Streamlit display call appends an element to the page. *)
Definition show (e : Element) : M unit :=
  modify (λ w, set_ui (ui w ++ [e]) w).

Definition record_call (c : Call) : M unit :=
  modify (λ w, set_calls (calls w ++ [c]) w).

(** ** Matplotlib's [pyplot] *)

(** [plt.figure()]: a new Figure object, which becomes the current one. *)
Definition plt_figure (p : Pyplot) : FigureRef * Pyplot :=
  let f := length (fig_heap p) in
  (f, mkPyplot (fig_heap p ++ [[]]) (open_figs p ++ [f])).

(** [plt.gcf()]: the current figure; one is created when none is open. *)
Definition plt_gcf (p : Pyplot) : FigureRef * Pyplot :=
  match last (open_figs p) with
  | Some f => (f, p)
  | None => plt_figure p
  end.

(** [plt.clf()]: [gcf().clear()], the current Figure object loses its axes. *)
Definition plt_clf (p : Pyplot) : Pyplot :=
  let '(f, p') := plt_gcf p in
  mkPyplot (<[f := []]> (fig_heap p')) (open_figs p').

(** The body of a plotting call ([plt.plot], [plt.hist], [sns.histplot], ...):
    it draws on the current axes of the current figure, adding an axes when
    the figure has none. *)
Definition draw_on (what : string) (fig : Figure) : Figure :=
  match last fig with
  | Some a => removelast fig ++ [a ++ [what]]
  | None => [[what]]
  end.

Definition plt_plot (what : string) (p : Pyplot) : Pyplot :=
  let '(f, p') := plt_gcf p in
  mkPyplot (alter (draw_on what) f (fig_heap p')) (open_figs p').

(** [plt.close()]: the current figure leaves the registry. *)
Definition plt_close (p : Pyplot) : Pyplot :=
  mkPyplot (fig_heap p) (removelast (open_figs p)).

(** [fig.get_axes()]. *)
Definition get_axes (f : FigureRef) (p : Pyplot) : Figure :=
  default [] (fig_heap p !! f).

(** What the code run by the agent may do with [pyplot]. *)
Inductive PltOp :=
| op_figure
| op_plot (what : string)
| op_close.

Definition run_op (o : PltOp) (p : Pyplot) : Pyplot :=
  match o with
  | op_figure => snd (plt_figure p)
  | op_plot what => plt_plot what p
  | op_close => plt_close p
  end.

Definition run_ops (os : list PltOp) (p : Pyplot) : Pyplot :=
  foldl (λ q o, run_op o q) p os.

(** ** What the script delegates *)

(** [ChatGoogleGenerativeAI(...)], as [get_llm] configures it. *)
Record LLM := mkLLM {
  model : string;
  google_api_key : string;
  temperature : nat;
  convert_system_message_to_human : bool
}.

(** The agent built by [create_pandas_dataframe_agent], with the arguments
    [initialize_agent] gives it.  [agent_df] is the DataFrame object itself,
    not a copy. *)
Record PandasAgent := mkAgent {
  agent_llm : LLM;
  agent_df : FrameRef;
  agent_prompt : list (string * string);
  verbose : bool;
  allow_dangerous_code : bool;
  handle_parsing_errors : bool
}.

(** [RunnableWithMessageHistory(agent, get_session_history, ...)]. *)
Record RunnableWithMessageHistory := mkRunnable {
  runnable : PandasAgent;
  input_messages_key : string;
  history_messages_key : string
}.

(** One run of the agent on a question: what it is given ... *)
Record AgentInput := mkAgentInput {
  question : string;
  chat_history : list Message;
  df_seen : DataFrame
}.

(** ... and what it does: the [pyplot] calls of the code it executed, the
    contents it leaves in the DataFrame it was handed (the code it executes
    runs on that very object), and either a raised exception or the text of
    [response["output"]]. *)
Record AgentRun := mkAgentRun {
  plot_ops : list PltOp;
  df_left : DataFrame;
  outcome : Exception + string
}.

(** The services: [pd.read_csv], the constructor of the Gemini client
    ([None] when it succeeds) and the behaviour of the agent. *)
Record Env := mkEnv {
  pd_read_csv : UploadedFile → Exception + DataFrame;
  llm_error : LLM → option Exception;
  agent_executor : PandasAgent → AgentInput → AgentRun
}.

(** The values the widgets and the clock give to one run of the script.
    [secrets] is [st.secrets] ([None]: no secrets file); [clock] is the text
    the f-string gives for [pd.Timestamp.now().timestamp()] in
    [initialize_session_state]; [reset_clicked] is [Some now] when the reset
    button was pressed, [now] being that text in the callback. *)
Record Inputs := mkInputs {
  secrets : option (gmap string string);
  text_input : string;
  file_uploader : option UploadedFile;
  chat_input : option string;
  clock : string;
  reset_clicked : option string
}.

(** Python truthiness of a string. *)
Definition truthy (s : string) : bool := bool_decide (s ≠ "").

(** First lines of the constant; the rest of the persona text is passed to
    the model unread by the script. *)
Definition AGENT_PERSONA : string :=
  "Você é um analista de dados e especialista em Python, Pandas, Matplotlib e Seaborn. Sua tarefa é analisar os dados carregados e apresentar análises detalhadas.".

(** ** The functions of the script *)

(** Attribute access on [st.session_state]. *)
Definition AttributeError (key : string) : Exception :=
  Exc "AttributeError" ("st.session_state has no attribute " +:+ key).

Definition KeyError (key : string) : Exception := Exc "KeyError" key.

Definition the_messages : M (list Message) :=
  w ← get_world;
  match messages (session_state w) with
  | Some ms => ret ms
  | None => raise (AttributeError "messages")
  end.

Definition the_session_id : M string :=
  w ← get_world;
  match session_id (session_state w) with
  | Some sid => ret sid
  | None => raise (AttributeError "session_id")
  end.

(** [st.session_state.messages.append(m)]. *)
Definition messages_append (m : Message) : M unit :=
  ms ← the_messages;
  modify (λ w, set_session_state
    (mkSession (Some (ms ++ [m])) (session_id (session_state w))
               (df_loaded (session_state w))) w).

(** [get_llm]; [st.cache_resource] hands back the same client for the same
    key. *)
Definition get_llm (E : Env) (key : string) : M LLM :=
  let llm := mkLLM "gemini-2.5-flash" key 0 true in
  record_call (call_ChatGoogleGenerativeAI key);;
  match llm_error E llm with
  | Some e => raise e
  | None => ret llm
  end.

(** [load_csv]; [st.cache_data] hands back, for the same file, a copy of
    the same value and replays the same display calls. *)
Definition load_csv (E : Env) (uploaded_file : UploadedFile) : M (option FrameRef) :=
  try_except
    (record_call (call_read_csv uploaded_file);;
     match pd_read_csv E uploaded_file with
     | inl e => raise e
     | inr d =>
         w ← get_world;
         modify (set_frames (frames w ++ [d]));;
         ret (Some (length (frames w)))
     end)
    (λ e,
       show (st_error ("Erro ao carregar o arquivo CSV: " +:+ exn_text e));;
       ret None).

(** [get_session_history]. *)
Definition get_session_history (sid : string) : M HistoryRef :=
  w ← get_world;
  match store w !! sid with
  | None =>
      modify (set_histories (histories w ++ [[]]));;
      modify (set_store (<[sid := length (histories w)]> (store w)))
  | Some _ => ret tt
  end;;
  w' ← get_world;
  match store w' !! sid with
  | Some h => ret h
  | None => raise (KeyError sid)
  end.

(** [initialize_session_state]; [now] is what the clock reads. *)
Definition initialize_session_state (now : string) : M unit :=
  modify (λ w,
    let s := session_state w in
    let s1 := match messages s with
              | None => mkSession (Some []) (session_id s) (df_loaded s)
              | Some _ => s
              end in
    let s2 := match session_id s1 with
              | None => mkSession (messages s1) (Some ("session_" +:+ now)) (df_loaded s1)
              | Some _ => s1
              end in
    set_session_state s2 w).

(** [clear_chat_history]. *)
Definition clear_chat_history (now : string) : M unit :=
  modify (λ w, set_session_state
    (mkSession (messages (session_state w)) (Some ("session_" +:+ now))
               (df_loaded (session_state w))) w);;
  modify (λ w, set_session_state
    (mkSession (Some []) (session_id (session_state w))
               (df_loaded (session_state w))) w);;
  w ← get_world;
  match df_loaded (session_state w) with
  | Some _ =>
      modify (set_session_state
        (mkSession (messages (session_state w)) (session_id (session_state w)) None))
  | None => ret tt
  end;;
  show (st_success "A conversa foi reiniciada!").

(** [initialize_agent]. *)
Definition initialize_agent (llm : LLM) (df : FrameRef) : M RunnableWithMessageHistory :=
  let prompt_template :=
    [("system", AGENT_PERSONA); ("placeholder", "chat_history");
     ("human", "{input}"); ("placeholder", "agent_scratchpad")] in
  record_call (call_create_pandas_dataframe_agent df);;
  let agent := mkAgent llm df prompt_template false true true in
  ret (mkRunnable agent "input" "chat_history").

(** [InMemoryChatMessageHistory.add_messages] on the history object [h]. *)
Definition add_messages (h : HistoryRef) (ms : list Message) : M unit :=
  modify (λ w, set_histories (alter (λ old, old ++ ms) h (histories w)) w).

(** [agent_with_memory.invoke({"input": prompt}, config)], by the contract
    of LangChain's [RunnableWithMessageHistory]: the history of the session
    is fetched through the callback it was built with, which is
    [get_session_history]; its messages go to the agent as [chat_history];
    when the agent returns, the question and the answer are added to that
    history object; when the agent raises, nothing is added and the
    exception goes on to the caller.  The code the agent executed has by then
    acted on [pyplot] and on the DataFrame. *)
Definition invoke (E : Env) (a : RunnableWithMessageHistory)
    (input sid : string) : M string :=
  record_call (call_invoke sid input);;
  h ← get_session_history sid;
  w ← get_world;
  past ← match histories w !! h with
         | Some ms => ret ms
         | None => raise (KeyError sid)
         end;
  d ← match frames w !! agent_df (runnable a) with
      | Some d => ret d
      | None => raise (Exc "ReferenceError" "DataFrame")
      end;
  let r := agent_executor E (runnable a) (mkAgentInput input past d) in
  modify (λ w, set_plt (run_ops (plot_ops r) (plt w)) w);;
  modify (λ w, set_frames (<[agent_df (runnable a) := df_left r]> (frames w)) w);;
  match outcome r with
  | inl e => raise e
  | inr output =>
      add_messages h [HumanMessage input; AIMessage output ∅];;
      ret output
  end.

(** [handle_chat_interaction]; [prompt] is what [st.chat_input] returns.
    The spinner is on the page only while the block runs. *)
Definition handle_chat_interaction (E : Env)
    (agent_with_memory : RunnableWithMessageHistory)
    (prompt : option string) : M unit :=
  match prompt with
  | Some prompt =>
      if truthy prompt then
        messages_append (HumanMessage prompt);;
        show (st_chat_message "user");;
        show (st_markdown prompt);;
        show (st_chat_message "assistant");;
        try_except
          (modify (λ w, set_plt (plt_clf (plt w)) w);;
           sid ← the_session_id;
           output ← invoke E agent_with_memory prompt sid;
           w ← get_world;
           let '(fig, p) := plt_gcf (plt w) in
           modify (set_plt p);;
           ai_message ←
             match get_axes fig p with
             | _ :: _ =>
                 show (st_pyplot fig (get_axes fig p));;
                 ret (AIMessage output {["plot" := fig]})
             | [] =>
                 show (st_markdown output);;
                 ret (AIMessage output ∅)
             end;
           messages_append ai_message)
          (λ e,
             let error_message :=
               "Ocorreu um erro durante a análise: " +:+ exn_text e in
             show (st_error error_message);;
             messages_append (AIMessage error_message ∅))
      else ret tt
  | None => ret tt
  end.

(** [except (C1, C2, ...)]: only exceptions of the listed classes are
    handled. *)
Definition try_except_of {A} (classes : list string)
    (body : M A) (handler : Exception → M A) : M A :=
  try_except body
    (λ e, if bool_decide (exn_class e ∈ classes) then handler e else raise e).

(** [st.secrets[key]]. *)
Definition secrets_getitem (inp : Inputs) (key : string) : M string :=
  match secrets inp with
  | None => raise (Exc "FileNotFoundError" "secrets.toml")
  | Some s =>
      match s !! key with
      | Some v => ret v
      | None => raise (KeyError key)
      end
  end.

(** [render_sidebar]; of the help text of [st.info] only the heading is
    kept. *)
Definition render_sidebar (inp : Inputs) : M (string * option UploadedFile) :=
  show (st_header "Configurações");;
  google_api_key ←
    try_except_of ["KeyError"; "FileNotFoundError"]
      (k ← secrets_getitem inp "GOOGLE_API_KEY";
       show (st_success "Chave de API carregada com segurança!");;
       ret k)
      (λ _,
         show (st_warning "Chave de API não encontrada nos segredos do Streamlit.");;
         show (st_text_input "Insira sua Chave de API do Google Gemini");;
         ret (text_input inp));
  show (st_file_uploader "Carregue seu arquivo CSV");;
  let uploaded_file := file_uploader inp in
  show (st_button "Sair e Limpar Conversa");;
  show (st_info "**Como usar:**");;
  ret (google_api_key, uploaded_file).

(** The loop of [main] that shows the transcript. *)
Fixpoint show_messages (ms : list Message) : M unit :=
  match ms with
  | [] => ret tt
  | message :: rest =>
      show (st_chat_message (type_name (mtype message)));;
      show (st_markdown (content message));;
      match additional_kwargs message !! "plot" with
      | Some fig =>
          w ← get_world;
          show (st_pyplot fig (get_axes fig (plt w)))
      | None => ret tt
      end;;
      show_messages rest
  end.

(** [main]; [st.set_page_config] puts nothing on the page. *)
Definition main (E : Env) (inp : Inputs) : M unit :=
  show (st_title "✨ Agente Gemini para Análise de Dados CSV");;
  show (st_write "**Bem-vindo!** Este agente usa o poder do Google Gemini para analisar arquivos CSV. Para começar, insira sua chave de API do Google na barra lateral, carregue seu arquivo CSV e faça suas perguntas.");;
  '(google_api_key, uploaded_file) ← render_sidebar inp;
  initialize_session_state (clock inp);;
  if negb (truthy google_api_key) then
    show (st_warning "Por favor, insira sua chave de API na barra lateral para começar.")
  else
    match uploaded_file with
    | None => show (st_info "Aguardando o carregamento de um arquivo CSV...")
    | Some uploaded_file =>
        ms ← the_messages;
        show_messages ms;;
        df ← load_csv E uploaded_file;
        match df with
        | Some df =>
            w ← get_world;
            (if negb (default false (df_loaded (session_state w))) then
               show (st_success "Arquivo CSV carregado com sucesso! Amostra dos dados:");;
               show (st_dataframe (head (default (mkFrame [] []) (frames w !! df))));;
               modify (λ w, set_session_state
                 (mkSession (messages (session_state w))
                            (session_id (session_state w)) (Some true)) w)
             else ret tt);;
            try_except
              (llm ← get_llm E google_api_key;
               agent_with_memory ← initialize_agent llm df;
               handle_chat_interaction E agent_with_memory (chat_input inp))
              (λ e,
                 show (st_error ("Ocorreu um erro crítico ao inicializar o agente: "
                                 +:+ exn_text e)))
        | None => ret tt
        end
    end.

(** One execution of the script, which Streamlit starts again from its
    first line at every action of the user.  A pressed reset button runs its
    [on_click] callback before that; then the page is drawn anew, the
    module-level statement [store = {}] is executed and, the module being
    [__main__], [main()] is called.  [st.session_state], the imported
    [pyplot] and the objects they reference outlast the run. *)
Definition script_run (E : Env) (inp : Inputs) : M unit :=
  modify (set_ui []);;
  match reset_clicked inp with
  | Some now => clear_chat_history now
  | None => ret tt
  end;;
  modify (set_store ∅);;
  main E inp.

(** Running a computation: its result and the world it leaves. *)
Definition result_of {A} (m : M A) (w : World) : Exception + A := fst (m w).
Definition world_after {A} (m : M A) (w : World) : World := snd (m w).

(** A process that has just started. *)
Definition fresh_world : World :=
  mkWorld (mkSession None None None) ∅ [] (mkPyplot [] []) [] [] [].

(** ** Notions used in the statements *)

(** The messages of the history that [store] holds for [sid]. *)
Definition history_of (w : World) (sid : string) : option (list Message) :=
  h ← store w !! sid; histories w !! h.

(** [store] names existing history objects, and no object twice. *)
Definition wf_store (w : World) : Prop :=
  (∀ sid h, store w !! sid = Some h → h < length (histories w)) ∧
  (∀ sid1 sid2 h, store w !! sid1 = Some h → store w !! sid2 = Some h → sid1 = sid2).

(** The key that [render_sidebar] returns. *)
Definition entered_key (inp : Inputs) : string :=
  match secrets inp with
  | Some s => default (text_input inp) (s !! "GOOGLE_API_KEY")
  | None => text_input inp
  end.

(** The world in which line 261, the call of [invoke], runs when [prompt]
    is handled in [w]: the question is in the transcript and on the page,
    and [plt.clf()] has been called. *)
Definition before_invoke (prompt : string) (w : World) : World :=
  let w1 := world_after
    (messages_append (HumanMessage prompt);;
     show (st_chat_message "user");;
     show (st_markdown prompt);;
     show (st_chat_message "assistant")) w in
  set_plt (plt_clf (plt w1)) w1.

(** The text [handle_chat_interaction] shows for the exception [e]. *)
Definition error_message (e : Exception) : string :=
  "Ocorreu um erro durante a análise: " +:+ exn_text e.

(** Lines 260-261 of [handle_chat_interaction] run in that world: the
    session identifier is read and the agent is invoked.  The result is the
    output of the agent or the exception raised, with the world then. *)
Definition attempt (E : Env) (a : RunnableWithMessageHistory)
    (prompt : string) (w : World) : (Exception + string) * World :=
  (sid ← the_session_id; invoke E a prompt sid) (before_invoke prompt w).

(** The assistant message that lines 262-280 build from it. *)
Definition reply (E : Env) (a : RunnableWithMessageHistory)
    (prompt : string) (w : World) : Message :=
  match attempt E a prompt w with
  | (inl e, _) => AIMessage (error_message e) ∅
  | (inr output, w') =>
      let '(fig, p) := plt_gcf (plt w') in
      match get_axes fig p with
      | _ :: _ => AIMessage output {["plot" := fig]}
      | [] => AIMessage output ∅
      end
  end.

(** What the page shows as the answer. *)
Definition answer_shown (E : Env) (a : RunnableWithMessageHistory)
    (prompt : string) (w : World) : Element :=
  match attempt E a prompt w with
  | (inl e, _) => st_error (error_message e)
  | (inr output, w') =>
      let '(fig, p) := plt_gcf (plt w') in
      match get_axes fig p with
      | _ :: _ => st_pyplot fig (get_axes fig p)
      | [] => st_markdown output
      end
  end.

(** The figure attached to a message, if any. *)
Definition plot_of (m : Message) : option FigureRef :=
  additional_kwargs m !! "plot".

(** Whether it returns or raises, [m] takes a world to one related to it
    by [R]. *)
Definition keeps (R : relation World) {A} (m : M A) : Prop :=
  ∀ w, R w (world_after m w).

(** The component [f] of the world is the same in both worlds. *)
Definition same {X} (f : World → X) : relation World := λ w w', f w' = f w.

(** The DataFrame objects of the first world are in the second, with the
    same contents. *)
Definition frames_kept : relation World :=
  λ w w', ∀ r d, frames w !! r = Some d → frames w' !! r = Some d.

(** In the run with inputs [inp] the chat box is reached (there is a key,
    the uploaded file is parsed, the client is built) and [q] is submitted
    in it. *)
Definition asks (E : Env) (inp : Inputs) (q : string) : Prop :=
  truthy (entered_key inp) = true ∧
  (∃ f d, file_uploader inp = Some f ∧ pd_read_csv E f = inr d) ∧
  llm_error E (mkLLM "gemini-2.5-flash" (entered_key inp) 0 true) = None ∧
  chat_input inp = Some q ∧
  truthy q = true.

(** ** Sample inputs *)

Definition sample_csv : UploadedFile := mkFile "vendas.csv" "mes,total\njan,10\nfev,12".
Definition broken_csv : UploadedFile := mkFile "quebrado.csv" "a;b\n1;2;3;4".
Definition sample_frame : DataFrame :=
  mkFrame ["mes"; "total"] [["jan"; "10"]; ["fev"; "12"]].

(** An agent that draws a histogram when asked for one (a plotting call on
    the current figure), drops the rows when asked to clean the data, fails
    on a question about quotas, and otherwise answers in words. *)
Definition sample_agent (a : PandasAgent) (i : AgentInput) : AgentRun :=
  if bool_decide (question i = "histograma") then
    mkAgentRun [op_plot "hist(total)"] (df_seen i) (inr "Segue o histograma.")
  else if bool_decide (question i = "dispersao") then
    mkAgentRun [op_plot "scatter(mes,total)"] (df_seen i) (inr "Segue a dispersão.")
  else if bool_decide (question i = "limpe") then
    mkAgentRun [] (mkFrame (columns (df_seen i)) []) (inr "Linhas removidas.")
  else if bool_decide (question i = "cota") then
    mkAgentRun [] (df_seen i) (inl (Exc "ResourceExhausted" "429 quota exceeded"))
  else
    mkAgentRun [] (df_seen i) (inr "A média é 11.00.").

Definition sample_env : Env :=
  mkEnv
    (λ f, if bool_decide (file_name f = "vendas.csv") then inr sample_frame
          else inl (Exc "ParserError" "Error tokenizing data"))
    (λ _, None)
    sample_agent.

(** The run of the script in which the sample file is uploaded under the
    key [chave] and [q] is typed in the chat box. *)
Definition ask (q : option string) : Inputs :=
  mkInputs None "chave" (Some sample_csv) q "1700000000.5" None.

(** A session that has its transcript and identifier, and the sample frame
    loaded as object 0. *)
Definition loaded_world : World :=
  world_after (load_csv sample_env sample_csv)
    (world_after (initialize_session_state "1700000000.5") fresh_world).

Definition sample_runnable : RunnableWithMessageHistory :=
  mkRunnable (mkAgent (mkLLM "gemini-2.5-flash" "chave" 0 true) 0
                [("system", AGENT_PERSONA); ("placeholder", "chat_history");
                 ("human", "{input}"); ("placeholder", "agent_scratchpad")]
                false true true)
             "input" "chat_history".

(** Two sessions, each with a history of its own. *)
Definition two_sessions : World :=
  set_histories [[HumanMessage "oi"]; [HumanMessage "bom dia"; AIMessage "bom dia!" ∅]]
    (set_store (<["session_1.5" := 0]> (<["session_2.5" := 1]> ∅)) fresh_world).

(** An environment in which the client rejects every key. *)
Definition no_client_env : Env :=
  mkEnv (pd_read_csv sample_env)
        (λ _, Some (Exc "ValueError" "API key not valid"))
        sample_agent.

(** The agent invocations among the calls: the session identifier and
    the input of each. *)
Fixpoint invocations (cs : list Call) : list (string * string) :=
  match cs with
  | [] => []
  | call_invoke sid input :: rest => (sid, input) :: invocations rest
  | _ :: rest => invocations rest
  end.

(** An agent that, given earlier turns, refers to them, and otherwise
    behaves as the sample agent. *)
Definition recalling_agent (a : PandasAgent) (i : AgentInput) : AgentRun :=
  match chat_history i with
  | [] => sample_agent a i
  | _ :: _ => mkAgentRun [] (df_seen i) (inr "Como vimos antes, a média é 11.00.")
  end.

Definition recalling_env : Env :=
  mkEnv (pd_read_csv sample_env) (llm_error sample_env) recalling_agent.

(** ** Reading a page *)

(** The frames shown by [st.dataframe], the texts shown by [st.markdown],
    the roles of the chat bubbles and the figures shown by [st.pyplot], in
    the order of the page. *)
Fixpoint previews (els : list Element) : list DataFrame :=
  match els with
  | [] => []
  | st_dataframe d :: rest => d :: previews rest
  | _ :: rest => previews rest
  end.

Fixpoint markdowns (els : list Element) : list string :=
  match els with
  | [] => []
  | st_markdown s :: rest => s :: markdowns rest
  | _ :: rest => markdowns rest
  end.

Fixpoint chat_roles (els : list Element) : list string :=
  match els with
  | [] => []
  | st_chat_message r :: rest => r :: chat_roles rest
  | _ :: rest => chat_roles rest
  end.

Fixpoint pyplots (els : list Element) : list nat :=
  match els with
  | [] => []
  | st_pyplot f _ :: rest => f :: pyplots rest
  | _ :: rest => pyplots rest
  end.

(** The session state as [initialize_session_state] leaves it. *)
Definition initialized (now : string) (s : SessionState) : SessionState :=
  mkSession (Some (default [] (messages s)))
            (Some (default ("session_" +:+ now) (session_id s)))
            (df_loaded s).

(** The transcript and the identifier of a session that has them are the
    same in the second world. *)
Definition session_kept : relation World :=
  λ w w', ∀ ms sid,
    messages (session_state w) = Some ms →
    session_id (session_state w) = Some sid →
    messages (session_state w') = Some ms ∧
    session_id (session_state w') = Some sid.

(** If [store] is well formed in the first world, it is in the second. *)
Definition wf_kept : relation World := λ w w', wf_store w → wf_store w'.

(** Nothing is submitted in the chat box: [st.chat_input] gives [None],
    or a string that Python takes for false. *)
Definition no_question (inp : Inputs) : Prop :=
  chat_input inp = None ∨ chat_input inp = Some "".

(** * Properties *)

(** ** Running the monad *)

Lemma run_bind {A B} (m : M A) (k : A → M B) (w : World) :
  (m ≫= k) w = match m w with
               | (inr a, w') => k a w'
               | (inl e, w') => (inl e, w')
               end.
Proof. reflexivity. Qed.

Lemma run_modify (f : World → World) (w : World) : modify f w = (inr tt, f w).
Proof. reflexivity. Qed.

Lemma run_show (e : Element) (w : World) :
  show e w = (inr tt, set_ui (ui w ++ [e]) w).
Proof. reflexivity. Qed.

Lemma run_try_except {A} (body : M A) (handler : Exception → M A) (w : World) :
  try_except body handler w = match body w with
                              | (inr a, w') => (inr a, w')
                              | (inl e, w') => handler e w'
                              end.
Proof. reflexivity. Qed.

Ltac unfold_M :=
  unfold result_of, world_after, mbind, M_bind, mret, M_ret, bind, ret, raise,
    try_except, modify, get_world, show, record_call in *.

(** Two equations on the same term give one. *)
Ltac merge_eqs :=
  repeat match goal with
         | H1 : ?x = _, H2 : ?x = _ |- _ => rewrite H1 in H2; simplify_eq
         end.


(** ** Session state *)

Lemma initialize_session_state_run (now : string) (w : World) :
  session_state (world_after (initialize_session_state now) w) =
    mkSession (Some (default [] (messages (session_state w))))
              (Some (default ("session_" +:+ now) (session_id (session_state w))))
              (df_loaded (session_state w)).
Proof.
  unfold initialize_session_state. unfold_M. cbn.
  destruct (session_state w) as [[ms|] [sid|] dl]; reflexivity.
Qed.

Lemma initialize_session_state_returns (now : string) (w : World) :
  result_of (initialize_session_state now) w = inr tt.
Proof. reflexivity. Qed.

(** C8: when the messages list and the session identifier are already in
    the session state, [initialize_session_state] changes nothing at all,
    whatever the clock reads; hence a second call never replaces the
    identifier the first call left, and the function generates an identifier
    at most once. *)
Theorem initialize_session_state_idempotent (now : string) (w : World) :
  is_Some (messages (session_state w)) →
  is_Some (session_id (session_state w)) →
  world_after (initialize_session_state now) w = w ∧
  ∀ (w0 : World) (now1 now2 : string),
    world_after (initialize_session_state now2)
      (world_after (initialize_session_state now1) w0) =
    world_after (initialize_session_state now1) w0.
Proof.
  assert (Hkeep : ∀ n v, is_Some (messages (session_state v)) →
            is_Some (session_id (session_state v)) →
            world_after (initialize_session_state n) v = v).
  { intros n v [ms Hms] [sid Hsid].
    unfold initialize_session_state. unfold_M. cbn.
    destruct v as [[m s d] st hs p fr u c]; cbn in *. by subst. }
  intros Hm Hs. split; [by apply Hkeep|].
  intros w0 now1 now2. apply Hkeep;
    rewrite initialize_session_state_run; cbn; eauto.
Qed.

Lemma initialize_session_state_idempotent_witness :
  let w := world_after (initialize_session_state "1700000000.5") fresh_world in
  world_after (initialize_session_state "1700000321.25") w = w.
Proof.
  intros w.
  apply (initialize_session_state_idempotent "1700000321.25" w);
    vm_compute; eauto.
Defined.

Lemma clear_chat_history_run (now : string) (w : World) :
  clear_chat_history now w =
    (inr tt,
     set_ui (ui w ++ [st_success "A conversa foi reiniciada!"])
       (set_session_state (mkSession (Some []) (Some ("session_" +:+ now)) None) w)).
Proof.
  unfold clear_chat_history. unfold_M. cbn.
  destruct w as [[m s [d|]] st hs p fr u c]; reflexivity.
Qed.




(** ** The store of chat histories *)

Lemma get_session_history_run (sid : string) (w : World) :
  get_session_history sid w =
    match store w !! sid with
    | Some h => (inr h, w)
    | None =>
        (inr (length (histories w)),
         set_store (<[sid := length (histories w)]> (store w))
           (set_histories (histories w ++ [[]]) w))
    end.
Proof.
  unfold get_session_history. unfold_M.
  destruct (store w !! sid) as [h|] eqn:Hs; cbn.
  - by rewrite Hs.
  - by rewrite lookup_insert_eq.
Qed.

(** [get_session_history] keeps every entry of [store] and every history
    object as it is; it adds an empty history for an absent identifier. *)
Lemma get_session_history_keeps (sid other : string) (h : HistoryRef) (w : World) :
  store w !! other = Some h →
  h < length (histories w) →
  let w' := world_after (get_session_history sid) w in
  store w' !! other = Some h ∧ histories w' !! h = histories w !! h.
Proof.
  intros Ho Hlt. unfold world_after. rewrite get_session_history_run.
  destruct (store w !! sid) as [h0|] eqn:Hs; cbn; [done|].
  split.
  - rewrite lookup_insert_ne; [done|]. intros ->. congruence.
  - by rewrite lookup_app_l.
Qed.

Lemma get_session_history_absent (sid : string) (w : World) :
  store w !! sid = None →
  history_of (world_after (get_session_history sid) w) sid = Some [].
Proof.
  intros Hs. unfold world_after, history_of. rewrite get_session_history_run, Hs.
  cbn. rewrite lookup_insert_eq. cbn.
  rewrite lookup_app_r by lia. by rewrite Nat.sub_diag.
Qed.

Lemma wf_store_empty (w : World) : store w = ∅ → wf_store w.
Proof. intros He. split; intros *; rewrite He, lookup_empty; done. Qed.

Lemma get_session_history_wf (sid : string) (w : World) :
  wf_store w → wf_store (world_after (get_session_history sid) w).
Proof.
  intros [Hb Hi]. unfold world_after. rewrite get_session_history_run.
  destruct (store w !! sid) as [h0|] eqn:Hs; cbn; [done|].
  split; cbn.
  - intros s h. rewrite length_app. cbn. rewrite lookup_insert.
    case_decide; [intros Ha; injection Ha as <-; lia|]. intros Hx%Hb. lia.
  - intros s1 s2 h. rewrite !lookup_insert.
    repeat case_decide; subst; try done.
    + intros Ha Hx%Hb. injection Ha as <-. lia.
    + intros Hx%Hb Ha. injection Ha as <-. lia.
    + apply Hi.
Qed.

Lemma add_messages_wf (h : HistoryRef) (ms : list Message) (w : World) :
  wf_store w → wf_store (world_after (add_messages h ms) w).
Proof.
  intros [Hb Hi]. split; cbn; [|done].
  intros s h'. rewrite length_alter. apply Hb.
Qed.

Lemma add_messages_other (h : HistoryRef) (ms : list Message) (w : World) (other : string) :
  store w !! other ≠ Some h →
  history_of (world_after (add_messages h ms) w) other = history_of w other.
Proof.
  intros Hne. unfold history_of. cbn.
  destruct (store w !! other) as [h'|] eqn:Ho; cbn; [|done].
  apply list_lookup_alter_ne. congruence.
Qed.

Lemma invoke_run (E : Env) (a : RunnableWithMessageHistory) (input sid : string) (w : World) :
  let w0 := set_calls (calls w ++ [call_invoke sid input]) w in
  let w1 := world_after (get_session_history sid) w0 in
  let h := default (length (histories w)) (store w !! sid) in
  invoke E a input sid w =
    match histories w1 !! h with
    | None => (inl (KeyError sid), w1)
    | Some past =>
        match frames w !! agent_df (runnable a) with
        | None => (inl (Exc "ReferenceError" "DataFrame"), w1)
        | Some d =>
            let r := agent_executor E (runnable a) (mkAgentInput input past d) in
            let w2 := set_frames (<[agent_df (runnable a) := df_left r]> (frames w))
                        (set_plt (run_ops (plot_ops r) (plt w)) w1) in
            match outcome r with
            | inl e => (inl e, w2)
            | inr output =>
                (inr output,
                 world_after (add_messages h [HumanMessage input; AIMessage output ∅]) w2)
            end
        end
    end.
Proof.
  intros w0 w1 h. subst w0 w1 h. unfold invoke, world_after.
  rewrite run_bind. cbn [record_call modify fst snd].
  rewrite run_bind, get_session_history_run. cbn [store set_calls histories].
  destruct (store w !! sid) as [h0|] eqn:Hs;
    unfold add_messages; unfold_M; cbn;
    repeat case_match; simplify_eq/=; merge_eqs; reflexivity.
Qed.

(** [invoke] touches neither the session state nor any entry of [store]
    but that of its own identifier. *)
Lemma invoke_session_state (E : Env) (a : RunnableWithMessageHistory)
    (input sid : string) (w : World) :
  session_state (world_after (invoke E a input sid) w) = session_state w.
Proof.
  unfold world_after at 1. rewrite invoke_run. unfold world_after.
  rewrite get_session_history_run. cbn.
  destruct (store w !! sid) as [h0|]; cbn;
    repeat (match goal with |- context [match ?x with _ => _ end] => destruct x end; cbn);
    reflexivity.
Qed.

Lemma invoke_other_history (E : Env) (a : RunnableWithMessageHistory)
    (input sid other : string) (w : World) :
  wf_store w → sid ≠ other →
  history_of (world_after (invoke E a input sid) w) other = history_of w other.
Proof.
  intros Hwf Hne.
  set (w0 := set_calls (calls w ++ [call_invoke sid input]) w).
  assert (Hwf0 : wf_store w0) by exact Hwf.
  pose proof (get_session_history_wf sid w0 Hwf0) as Hwf1.
  assert (H1 : history_of (world_after (get_session_history sid) w0) other
               = history_of w other).
  { unfold history_of.
    destruct (store w !! other) as [h'|] eqn:Ho; cbn.
    - destruct Hwf as [Hb _].
      destruct (get_session_history_keeps sid other h' w0 Ho (Hb _ _ Ho)) as [Hk1 Hk2].
      rewrite Hk1. cbn. by rewrite Hk2.
    - unfold world_after. rewrite get_session_history_run. cbn.
      destruct (store w !! sid) as [h0|] eqn:Hs; cbn; [by rewrite Ho|].
      rewrite lookup_insert_ne by done. by rewrite Ho. }
  assert (Hh : store (world_after (get_session_history sid) w0) !! sid
               = Some (default (length (histories w)) (store w !! sid))).
  { unfold world_after. rewrite get_session_history_run. cbn.
    destruct (store w !! sid) as [h0|] eqn:Hs; cbn; [done|].
    by rewrite lookup_insert_eq. }
  unfold world_after at 1. rewrite invoke_run. fold w0.
  set (w1 := world_after (get_session_history sid) w0) in *.
  set (h := default (length (histories w)) (store w !! sid)) in *.
  cbn zeta.
  destruct (histories w1 !! h) as [past|]; cbn [snd]; [|done].
  destruct (frames w !! agent_df (runnable a)) as [d|]; cbn [snd]; [|done].
  destruct (outcome _) as [e|out]; cbn [snd]; [done|].
  rewrite add_messages_other; [done|].
  cbn. intros Ho. destruct Hwf1 as [_ Hi]. apply Hne. by eapply Hi.
Qed.

Lemma history_of_present (w : World) (sid : string) (h : nat) :
  wf_store w → store w !! sid = Some h →
  ∃ ms, histories w !! h = Some ms ∧ history_of w sid = Some ms.
Proof.
  intros [Hb _] Hs. destruct (lookup_lt_is_Some_2 (histories w) h) as [ms Hms].
  { by eapply Hb. }
  exists ms. split; [done|]. unfold history_of. rewrite Hs. exact Hms.
Qed.

(** What [get_session_history] hands back is the history of its own
    identifier, empty when there was none. *)
Lemma get_session_history_reads (sid : string) (w : World) :
  wf_store w →
  ∃ h, result_of (get_session_history sid) w = inr h ∧
       store (world_after (get_session_history sid) w) !! sid = Some h ∧
       histories (world_after (get_session_history sid) w) !! h
         = Some (default [] (history_of w sid)).
Proof.
  intros Hwf. unfold result_of, world_after. rewrite get_session_history_run.
  destruct (store w !! sid) as [h0|] eqn:Hs; cbn.
  - exists h0. destruct (history_of_present w sid h0 Hwf Hs) as (ms & Hms & Hh).
    rewrite Hh. cbn. done.
  - exists (length (histories w)). rewrite lookup_insert_eq.
    unfold history_of. rewrite Hs. cbn.
    rewrite lookup_app_r by lia. by rewrite Nat.sub_diag.
Qed.

(** C7: the histories of two distinct session identifiers are disjoint.
    Looking up or creating the history of [sid] hands back the history of
    [sid] alone (two stores that agree on [sid] give the same messages,
    whatever they hold for other identifiers) and leaves the history of
    every other identifier as it was; appending to the history handed back
    changes the history of [sid] and of no other identifier; and so does a
    whole agent call made for [sid]. *)
Theorem histories_are_disjoint (w : World) (sid other : string) :
  wf_store w →
  sid ≠ other →
  let w1 := world_after (get_session_history sid) w in
  ∃ h,
    result_of (get_session_history sid) w = inr h ∧
    histories w1 !! h = Some (default [] (history_of w sid)) ∧
    (∀ w2 h2, wf_store w2 → history_of w2 sid = history_of w sid →
       result_of (get_session_history sid) w2 = inr h2 →
       histories (world_after (get_session_history sid) w2) !! h2 = histories w1 !! h) ∧
    history_of w1 other = history_of w other ∧
    (∀ ms, history_of (world_after (add_messages h ms) w1) sid
             = Some (default [] (history_of w sid) ++ ms) ∧
           history_of (world_after (add_messages h ms) w1) other
             = history_of w other) ∧
    (∀ E a input,
       history_of (world_after (invoke E a input sid) w) other = history_of w other).
Proof.
  intros Hwf Hne w1.
  destruct (get_session_history_reads sid w Hwf) as (h & Hres & Hst & Hread).
  fold w1 in Hst, Hread.
  assert (Hwf1 : wf_store w1) by by apply get_session_history_wf.
  assert (Hother : history_of w1 other = history_of w other).
  { unfold history_of. destruct (store w !! other) as [h'|] eqn:Ho; cbn.
    - destruct Hwf as [Hb _].
      destruct (get_session_history_keeps sid other h' w Ho (Hb _ _ Ho)) as [Hk1 Hk2].
      fold w1 in Hk1, Hk2. rewrite Hk1. cbn. by rewrite Hk2.
    - subst w1. unfold world_after. rewrite get_session_history_run.
      destruct (store w !! sid) as [h0|] eqn:Hs; cbn; [by rewrite Ho|].
      rewrite lookup_insert_ne by done. by rewrite Ho. }
  exists h. split_and!; try done.
  - intros w2 h2 Hwf2 Hsame Hres2.
    destruct (get_session_history_reads sid w2 Hwf2) as (h2' & Hres2' & _ & Hread2).
    rewrite Hres2 in Hres2'. injection Hres2' as <-.
    by rewrite Hread2, Hread, Hsame.
  - intros ms. split.
    + unfold history_of. cbn. fold w1. rewrite Hst. cbn.
      rewrite list_lookup_alter_eq, Hread. done.
    + rewrite add_messages_other; [done|].
      intros Ho. destruct Hwf1 as [_ Hi]. apply Hne. by eapply Hi.
  - intros E a input. by apply invoke_other_history.
Qed.

Lemma two_sessions_wf : wf_store two_sessions.
Proof.
  split.
  - intros sid h. cbn. rewrite !lookup_insert. repeat case_decide;
      rewrite ?lookup_empty; intros; simplify_eq; lia.
  - intros s1 s2 h. cbn. rewrite !lookup_insert. repeat case_decide;
      rewrite ?lookup_empty; intros; simplify_eq; done.
Defined.

Lemma histories_are_disjoint_witness :
  history_of (world_after (invoke sample_env
                 (mkRunnable (mkAgent (mkLLM "gemini-2.5-flash" "k" 0 true) 0 [] false true true)
                             "input" "chat_history")
                 "media" "session_1.5") two_sessions) "session_2.5"
  = history_of two_sessions "session_2.5".
Proof.
  destruct (histories_are_disjoint two_sessions "session_1.5" "session_2.5"
              two_sessions_wf ltac:(discriminate)) as (h & _ & _ & _ & _ & _ & Hinv).
  apply Hinv.
Defined.

(** ** Parts of the world a computation leaves alone *)

Section Keeps.
Context (R : relation World) `{!PreOrder R}.

Lemma keeps_ret {A} (a : A) : keeps R (mret a).
Proof. intros w. reflexivity. Qed.

Lemma keeps_raise {A} (e : Exception) : keeps R (raise (A:=A) e).
Proof. intros w. reflexivity. Qed.

Lemma keeps_get_world : keeps R get_world.
Proof. intros w. reflexivity. Qed.

Lemma keeps_modify (g : World → World) :
  (∀ w, R w (g w)) → keeps R (modify g).
Proof. intros H w. apply H. Qed.

Lemma keeps_bind {A B} (m : M A) (k : A → M B) :
  keeps R m → (∀ a, keeps R (k a)) → keeps R (m ≫= k).
Proof.
  intros Hm Hk w. unfold world_after. rewrite run_bind.
  specialize (Hm w). unfold world_after in Hm.
  destruct (m w) as [[e|a] w']; cbn in *; [done|].
  etrans; [exact Hm|]. apply Hk.
Qed.

Lemma keeps_try_except {A} (m : M A) (k : Exception → M A) :
  keeps R m → (∀ e, keeps R (k e)) → keeps R (try_except m k).
Proof.
  intros Hm Hk w. unfold world_after, try_except.
  specialize (Hm w). unfold world_after in Hm.
  destruct (m w) as [[e|a] w']; cbn in *; [|done].
  etrans; [exact Hm|]. apply Hk.
Qed.
End Keeps.

#[global] Instance same_preorder {X} (f : World → X) : PreOrder (same f).
Proof.
  split.
  - by intros w.
  - intros w1 w2 w3 H12 H23. unfold same in *. congruence.
Qed.

#[global] Instance frames_kept_preorder : PreOrder frames_kept.
Proof.
  split; [by intros w r d H|].
  intros w1 w2 w3 H12 H23 r d H. by apply H23, H12.
Qed.

(** Decomposes a goal [keeps R m] along the structure of [m]; what is left
    are the updates of the world, closed by [tac]. *)
Ltac keeps_with tac :=
  repeat match goal with
  | |- keeps _ (mret _) => apply keeps_ret; exact _
  | |- keeps _ (ret _) => apply keeps_ret; exact _
  | |- keeps _ (raise _) => apply keeps_raise; exact _
  | |- keeps _ get_world => apply keeps_get_world; exact _
  | |- keeps _ (_ ≫= _) => apply keeps_bind; [exact _| |intros ?]
  | |- keeps _ (try_except _ _) => apply keeps_try_except; [exact _| |intros ?]
  | |- keeps _ (modify _) => apply keeps_modify; intros ?; tac
  | |- keeps _ (show _) => apply keeps_modify; intros ?; tac
  | |- keeps _ (record_call _) => apply keeps_modify; intros ?; tac
  | |- keeps _ (match ?x with _ => _ end) => destruct x
  | |- keeps _ (if ?x then _ else _) => destruct x
  | |- keeps _ (let '(_, _) := ?x in _) => destruct x
  end.

Section KeepsScript.
Context (R : relation World) `{!PreOrder R}.
Context (R_session : ∀ s w, R w (set_session_state s w)).
Context (R_ui : ∀ u w, R w (set_ui u w)).
Context (R_calls : ∀ c w, R w (set_calls c w)).

Lemma keeps_messages_append (m : Message) : keeps R (messages_append m).
Proof.
  unfold messages_append, the_messages.
  keeps_with ltac:(by cbn beta; auto).
Qed.

Lemma keeps_the_messages : keeps R the_messages.
Proof. unfold the_messages. keeps_with ltac:(by cbn beta; auto). Qed.

Lemma keeps_show_messages (ms : list Message) : keeps R (show_messages ms).
Proof.
  induction ms as [|m ms IH]; cbn [show_messages]; [by apply keeps_ret|].
  repeat (first [exact IH | progress keeps_with ltac:(by cbn beta; auto)]).
Qed.

Lemma keeps_render_sidebar (inp : Inputs) : keeps R (render_sidebar inp).
Proof.
  unfold render_sidebar, try_except_of, secrets_getitem.
  keeps_with ltac:(by cbn beta; auto).
Qed.

Lemma keeps_initialize_session_state (now : string) :
  keeps R (initialize_session_state now).
Proof. unfold initialize_session_state. keeps_with ltac:(by cbn beta; auto). Qed.

Lemma keeps_get_llm (E : Env) (key : string) : keeps R (get_llm E key).
Proof. unfold get_llm. keeps_with ltac:(by cbn beta; auto). Qed.

Lemma keeps_initialize_agent (llm : LLM) (df : nat) :
  keeps R (initialize_agent llm df).
Proof. unfold initialize_agent. keeps_with ltac:(by cbn beta; auto). Qed.

Lemma keeps_clear_chat_history (now : string) : keeps R (clear_chat_history now).
Proof.
  intros w. unfold world_after. rewrite clear_chat_history_run. cbn.
  etrans; [apply R_session|]. apply R_ui.
Qed.
End KeepsScript.

(** ** Handling a question *)

#[local] Arguments invoke : simpl never.
#[local] Arguments plt_clf : simpl never.
#[local] Arguments plt_gcf : simpl never.
#[local] Arguments get_axes : simpl never.

Lemma before_invoke_session (q : string) (ms : list Message) (w : World) :
  messages (session_state w) = Some ms →
  session_state (before_invoke q w) =
    mkSession (Some (ms ++ [HumanMessage q])) (session_id (session_state w))
              (df_loaded (session_state w)).
Proof.
  intros Hms. unfold before_invoke, messages_append, the_messages. unfold_M.
  cbn. rewrite Hms. reflexivity.
Qed.

Lemma the_session_id_run (w : World) :
  the_session_id w =
    match session_id (session_state w) with
    | Some sid => (inr sid, w)
    | None => (inl (AttributeError "session_id"), w)
    end.
Proof. unfold the_session_id. unfold_M. by destruct (session_id _). Qed.

Lemma messages_append_run (m : Message) (w : World) :
  messages_append m w =
    match messages (session_state w) with
    | Some ms =>
        (inr tt, set_session_state
           (mkSession (Some (ms ++ [m])) (session_id (session_state w))
                      (df_loaded (session_state w))) w)
    | None => (inl (AttributeError "messages"), w)
    end.
Proof.
  unfold messages_append, the_messages. unfold_M. by destruct (messages _).
Qed.

(** Evaluates a computation applied to a world, one statement at a time. *)
Ltac run_step :=
  first
    [ rewrite run_bind | rewrite run_try_except | rewrite run_show
    | rewrite run_modify | rewrite messages_append_run
    | rewrite the_session_id_run
    | progress cbn [fst snd ret mret M_ret get_world raise session_state store
                    histories plt frames ui calls messages session_id df_loaded
                    set_session_state set_store set_histories set_plt set_frames
                    set_ui set_calls error_message] ].

Ltac run_all := repeat run_step.

Lemma attempt_session_state (E : Env) (a : RunnableWithMessageHistory)
    (q : string) (w : World) :
  session_state (snd (attempt E a q w)) = session_state (before_invoke q w).
Proof.
  unfold attempt. generalize (before_invoke q w). intros w1.
  rewrite run_bind, the_session_id_run.
  destruct (session_id (session_state w1)) as [sid|]; [|done].
  apply invoke_session_state.
Qed.

(** What [handle_chat_interaction] does with a question: it returns, and
    the world it leaves is that of the attempt, with the reply appended to
    the transcript. *)
Lemma handle_chat_interaction_run (E : Env) (a : RunnableWithMessageHistory)
    (q : string) (ms : list Message) (w : World) :
  truthy q = true →
  messages (session_state w) = Some ms →
  let w' := world_after (handle_chat_interaction E a (Some q)) w in
  result_of (handle_chat_interaction E a (Some q)) w = inr tt ∧
  session_state w' =
    mkSession (Some (ms ++ [HumanMessage q; reply E a q w]))
              (session_id (session_state w)) (df_loaded (session_state w)) ∧
  store w' = store (snd (attempt E a q w)) ∧
  histories w' = histories (snd (attempt E a q w)) ∧
  frames w' = frames (snd (attempt E a q w)) ∧
  calls w' = calls (snd (attempt E a q w)) ∧
  ui w' = ui (snd (attempt E a q w)) ++ [answer_shown E a q w] ∧
  plt w' = match fst (attempt E a q w) with
           | inl _ => plt (snd (attempt E a q w))
           | inr _ => snd (plt_gcf (plt (snd (attempt E a q w))))
           end.
Proof.
  intros Ht Hms w'. subst w'.
  unfold reply, answer_shown, attempt, before_invoke, result_of, world_after,
    handle_chat_interaction.
  rewrite Ht.
  destruct w as [[m osid dl] st hs p fr u c]. cbn in Hms. subst m.
  run_all.
  destruct osid as [sid|]; run_all.
  2: { rewrite <- app_assoc. done. }
  match goal with |- context [invoke E a q sid ?W] =>
    pose proof (invoke_session_state E a q sid W) as Hss;
    unfold world_after in Hss;
    destruct (invoke E a q sid W) as [[e|out] w2] end; cbn in Hss; run_all.
  - rewrite Hss. run_all. rewrite <- app_assoc. done.
  - destruct (plt_gcf (plt w2)) as [fig p2] eqn:Hg. run_all.
    destruct (get_axes fig p2) as [|ax axs] eqn:Hax; run_all;
      rewrite Hss; run_all; rewrite <- app_assoc; done.
Qed.

Lemma reply_is_ai (E : Env) (a : RunnableWithMessageHistory) (q : string) (w : World) :
  mtype (reply E a q w) = ai ∧
  content (reply E a q w) = match fst (attempt E a q w) with
                            | inr output => output
                            | inl e => error_message e
                            end.
Proof.
  unfold reply. destruct (attempt E a q w) as [[e|out] w2]; [done|].
  destruct (plt_gcf (plt w2)) as [fig p2]. by destruct (get_axes fig p2).
Qed.

(** What [attempt] returns when the session has its identifier. *)
Lemma attempt_with_session (E : Env) (a : RunnableWithMessageHistory)
    (q sid : string) (w : World) :
  session_id (session_state w) = Some sid →
  is_Some (messages (session_state w)) →
  attempt E a q w = invoke E a q sid (before_invoke q w).
Proof.
  intros Hsid [ms Hms]. unfold attempt.
  rewrite run_bind, the_session_id_run, (before_invoke_session q ms w Hms). cbn.
  by rewrite Hsid.
Qed.

(** C10: for a submitted question, [handle_chat_interaction] returns and
    has appended exactly two messages to [st.session_state.messages]: the
    question as a human message, then one assistant message, whose content is
    the output of the agent when the attempt returned and the error text when
    it raised. *)
Theorem handle_chat_interaction_appends_two (E : Env)
    (a : RunnableWithMessageHistory) (q : string) (ms : list Message) (w : World) :
  truthy q = true →
  messages (session_state w) = Some ms →
  let w' := world_after (handle_chat_interaction E a (Some q)) w in
  result_of (handle_chat_interaction E a (Some q)) w = inr tt ∧
  ∃ answer,
    messages (session_state w') = Some (ms ++ [HumanMessage q; answer]) ∧
    mtype answer = ai ∧
    content answer = match fst (attempt E a q w) with
                     | inr output => output
                     | inl e => error_message e
                     end.
Proof.
  intros Ht Hms w'.
  destruct (handle_chat_interaction_run E a q ms w Ht Hms) as (Hr & Hs & _).
  split; [done|]. exists (reply E a q w). fold w' in Hs. rewrite Hs. cbn.
  split; [done|]. apply reply_is_ai.
Qed.

Lemma handle_chat_interaction_appends_two_witness :
  let w' := world_after
    (handle_chat_interaction sample_env sample_runnable (Some "cota")) loaded_world in
  result_of (handle_chat_interaction sample_env sample_runnable (Some "cota"))
    loaded_world = inr tt ∧
  ∃ answer,
    messages (session_state w') = Some ([] ++ [HumanMessage "cota"; answer]) ∧
    mtype answer = ai ∧
    content answer = match fst (attempt sample_env sample_runnable "cota" loaded_world) with
                     | inr output => output
                     | inl e => error_message e
                     end.
Proof.
  apply (handle_chat_interaction_appends_two sample_env sample_runnable "cota" []
           loaded_world); vm_compute; reflexivity.
Defined.

(** C4: when the agent invocation raises an exception, it is caught:
    [handle_chat_interaction] returns; the error text, which ends with the
    text of the exception, is shown on the page and appended to the
    transcript as an assistant message after the question; the session
    identifier, the rest of the session state and the messages stored before
    are as they were; and a further question is handled in the world that is
    left, its two messages coming after those. *)
Theorem agent_failure_is_caught (E : Env) (a : RunnableWithMessageHistory)
    (q sid : string) (ms : list Message) (e : Exception) (w : World) :
  truthy q = true →
  messages (session_state w) = Some ms →
  session_id (session_state w) = Some sid →
  result_of (invoke E a q sid) (before_invoke q w) = inl e →
  let w' := world_after (handle_chat_interaction E a (Some q)) w in
  result_of (handle_chat_interaction E a (Some q)) w = inr tt ∧
  session_state w' =
    mkSession (Some (ms ++ [HumanMessage q; AIMessage (error_message e) ∅]))
              (Some sid) (df_loaded (session_state w)) ∧
  error_message e = "Ocorreu um erro durante a análise: " +:+ exn_text e ∧
  last (ui w') = Some (st_error (error_message e)) ∧
  ∀ (E2 : Env) (a2 : RunnableWithMessageHistory) (q2 : string),
    truthy q2 = true →
    result_of (handle_chat_interaction E2 a2 (Some q2)) w' = inr tt ∧
    ∃ answer,
      messages (session_state (world_after (handle_chat_interaction E2 a2 (Some q2)) w'))
      = Some (ms ++ [HumanMessage q; AIMessage (error_message e) ∅]
                 ++ [HumanMessage q2; answer]).
Proof.
  intros Ht Hms Hsid Hraise w'.
  destruct (handle_chat_interaction_run E a q ms w Ht Hms)
    as (Hr & Hs & _ & _ & _ & _ & Hui & _).
  fold w' in Hs, Hui.
  assert (Hatt : fst (attempt E a q w) = inl e).
  { rewrite (attempt_with_session E a q sid w Hsid) by eauto. exact Hraise. }
  assert (Hreply : reply E a q w = AIMessage (error_message e) ∅).
  { unfold reply. destruct (attempt E a q w) as [[e'|out] w2]; cbn in Hatt; by simplify_eq. }
  assert (Hshown : answer_shown E a q w = st_error (error_message e)).
  { unfold answer_shown. destruct (attempt E a q w) as [[e'|out] w2]; cbn in Hatt; by simplify_eq. }
  rewrite Hreply, Hsid in Hs. rewrite Hshown in Hui.
  split_and!; try done.
  - rewrite Hui. apply last_snoc.
  - intros E2 a2 q2 Ht2.
    assert (Hms' : messages (session_state w')
                   = Some (ms ++ [HumanMessage q; AIMessage (error_message e) ∅]))
      by by rewrite Hs.
    destruct (handle_chat_interaction_run E2 a2 q2 _ w' Ht2 Hms') as (Hr2 & Hs2 & _).
    split; [done|]. exists (reply E2 a2 q2 w'). rewrite Hs2. cbn.
    by rewrite <- app_assoc.
Qed.

Lemma agent_failure_is_caught_witness :
  let e := Exc "ResourceExhausted" "429 quota exceeded" in
  let w' := world_after
    (handle_chat_interaction sample_env sample_runnable (Some "cota")) loaded_world in
  result_of (handle_chat_interaction sample_env sample_runnable (Some "cota"))
    loaded_world = inr tt ∧
  session_state w' =
    mkSession (Some ([] ++ [HumanMessage "cota"; AIMessage (error_message e) ∅]))
              (Some "session_1700000000.5") (df_loaded (session_state loaded_world)) ∧
  error_message e = "Ocorreu um erro durante a análise: " +:+ exn_text e ∧
  last (ui w') = Some (st_error (error_message e)) ∧
  ∀ (E2 : Env) (a2 : RunnableWithMessageHistory) (q2 : string),
    truthy q2 = true →
    result_of (handle_chat_interaction E2 a2 (Some q2)) w' = inr tt ∧
    ∃ answer,
      messages (session_state (world_after (handle_chat_interaction E2 a2 (Some q2)) w'))
      = Some ([] ++ [HumanMessage "cota"; AIMessage (error_message e) ∅]
                 ++ [HumanMessage q2; answer]).
Proof.
  intros e.
  apply (agent_failure_is_caught sample_env sample_runnable "cota"
           "session_1700000000.5" [] e loaded_world); vm_compute; reflexivity.
Defined.



(** ** The DataFrame *)

Lemma same_frames_session (s : SessionState) (w : World) :
  same frames w (set_session_state s w).
Proof. reflexivity. Qed.

Lemma same_frames_ui (u : list Element) (w : World) : same frames w (set_ui u w).
Proof. reflexivity. Qed.

Lemma same_frames_calls (c : list Call) (w : World) : same frames w (set_calls c w).
Proof. reflexivity. Qed.

Lemma before_invoke_frames (q : string) (w : World) :
  frames (before_invoke q w) = frames w.
Proof.
  unfold before_invoke. cbn [frames set_plt].
  assert (H : keeps (same frames)
            (messages_append (HumanMessage q);; show (st_chat_message "user");;
             show (st_markdown q);; show (st_chat_message "assistant"))).
  { keeps_with ltac:(reflexivity).
    apply keeps_messages_append; [exact _|apply same_frames_session]. }
  apply H.
Qed.

(** An agent call leaves the DataFrame objects as they are, but for the
    object the agent was built on, which then holds what the run of the agent
    left in it. *)
Lemma invoke_frames (E : Env) (a : RunnableWithMessageHistory)
    (q sid : string) (w : World) :
  let w' := world_after (invoke E a q sid) w in
  frames w' = frames w ∨
  ∃ past d,
    frames w !! agent_df (runnable a) = Some d ∧
    frames w' = <[agent_df (runnable a) :=
                    df_left (agent_executor E (runnable a) (mkAgentInput q past d))]>
                  (frames w).
Proof.
  intros w'. subst w'. unfold world_after at 1 2. rewrite invoke_run.
  unfold world_after. rewrite get_session_history_run.
  cbn [store set_calls histories].
  destruct (store w !! sid) as [h0|]; cbn [snd histories set_store set_histories];
    (match goal with |- context [match ?x !! ?i with _ => _ end] =>
       destruct (x !! i) as [past|] end; [|by left]);
    (destruct (frames w !! agent_df (runnable a)) as [d|] eqn:Hd; [|by left]);
    right; exists past, d; (split; [done|]);
    by destruct (outcome _).
Qed.

Lemma handle_chat_interaction_frames (E : Env) (a : RunnableWithMessageHistory)
    (prompt : option string) (w : World) :
  let w' := world_after (handle_chat_interaction E a prompt) w in
  frames w' = frames w ∨
  ∃ q past d,
    prompt = Some q ∧
    frames w !! agent_df (runnable a) = Some d ∧
    frames w' = <[agent_df (runnable a) :=
                    df_left (agent_executor E (runnable a) (mkAgentInput q past d))]>
                  (frames w).
Proof.
  intros w'. subst w'. destruct prompt as [q|]; [|by left].
  destruct (truthy q) eqn:Ht.
  2: { left. unfold world_after, handle_chat_interaction. by rewrite Ht. }
  destruct (messages (session_state w)) as [ms|] eqn:Hms.
  2: { left. unfold world_after, handle_chat_interaction. rewrite Ht.
       rewrite run_bind, messages_append_run, Hms. done. }
  destruct (handle_chat_interaction_run E a q ms w Ht Hms)
    as (_ & _ & _ & _ & Hf & _).
  rewrite Hf. unfold attempt. rewrite run_bind, the_session_id_run.
  destruct (session_id (session_state (before_invoke q w))) as [sid|].
  2: { left. cbn. apply before_invoke_frames. }
  destruct (invoke_frames E a q sid (before_invoke q w)) as [H|(past & d & Hd & H)];
    unfold world_after in H; rewrite H, ?before_invoke_frames; [by left|].
  right. exists q, past, d. by rewrite <- (before_invoke_frames q w).
Qed.

Lemma load_csv_run (E : Env) (f : UploadedFile) (w : World) :
  load_csv E f w =
    let w0 := set_calls (calls w ++ [call_read_csv f]) w in
    match pd_read_csv E f with
    | inr d => (inr (Some (length (frames w))), set_frames (frames w ++ [d]) w0)
    | inl e =>
        (inr None,
         set_ui (ui w ++ [st_error ("Erro ao carregar o arquivo CSV: " +:+ exn_text e)]) w0)
    end.
Proof.
  unfold load_csv. unfold_M. cbn. by destruct (pd_read_csv E f).
Qed.

Lemma frames_kept_same (w w' : World) : frames w' = frames w → frames_kept w w'.
Proof. intros H r d. by rewrite H. Qed.

Lemma keeps_frames_load_csv (E : Env) (f : UploadedFile) :
  keeps frames_kept (load_csv E f).
Proof.
  intros w. unfold world_after. rewrite load_csv_run. cbn zeta.
  destruct (pd_read_csv E f) as [e|d]; cbn [snd]; [by apply frames_kept_same|].
  intros r d' Hr. cbn. by apply lookup_app_l_Some.
Qed.

Lemma keeps_frames_main (E : Env) (inp : Inputs) :
  chat_input inp = None → keeps frames_kept (main E inp).
Proof.
  intros Hnone. unfold main, handle_chat_interaction. rewrite Hnone.
  assert (Hs : ∀ s w, frames_kept w (set_session_state s w))
    by (intros; by apply frames_kept_same).
  assert (Hu : ∀ u w, frames_kept w (set_ui u w))
    by (intros; by apply frames_kept_same).
  assert (Hc : ∀ c w, frames_kept w (set_calls c w))
    by (intros; by apply frames_kept_same).
  repeat first
    [ apply keeps_render_sidebar; first [exact _|done]
    | apply keeps_initialize_session_state; first [exact _|done]
    | apply keeps_the_messages; first [exact _|done]
    | apply keeps_show_messages; first [exact _|done]
    | apply keeps_frames_load_csv
    | apply keeps_get_llm; first [exact _|done]
    | apply keeps_initialize_agent; first [exact _|done]
    | progress keeps_with ltac:(by apply frames_kept_same) ].
Qed.


(** C6 as stated fails for chat handling: asked to clean the data, the
    sample agent runs code that drops the rows of the frame it was handed,
    and the DataFrame that [load_csv] returned has lost them when
    [handle_chat_interaction] returns. *)
Lemma chat_handling_changes_the_frame :
  let w' := world_after
    (handle_chat_interaction sample_env sample_runnable (Some "limpe")) loaded_world in
  frames loaded_world !! 0 = Some sample_frame ∧
  frames w' !! 0 = Some (mkFrame ["mes"; "total"] []) ∧
  ¬ (frames w' = frames loaded_world).
Proof. vm_compute. split_and!; [reflexivity..|discriminate]. Qed.

(** ** Charts *)

(** The part of C3 that holds (X7): when the agent returned and the
    current figure then has axes, the answer stored for the question carries
    that figure, and it is shown. *)
Lemma chart_attached_to_its_answer (E : Env) (a : RunnableWithMessageHistory)
    (q output : string) (ms : list Message) (w w2 : World) (fig : nat) (p : Pyplot) :
  truthy q = true →
  messages (session_state w) = Some ms →
  attempt E a q w = (inr output, w2) →
  plt_gcf (plt w2) = (fig, p) →
  get_axes fig p ≠ [] →
  let w' := world_after (handle_chat_interaction E a (Some q)) w in
  messages (session_state w') =
    Some (ms ++ [HumanMessage q; AIMessage output {["plot" := fig]}]) ∧
  last (ui w') = Some (st_pyplot fig (get_axes fig p)).
Proof.
  intros Ht Hms Hatt Hg Hax w'.
  destruct (handle_chat_interaction_run E a q ms w Ht Hms)
    as (_ & Hs & _ & _ & _ & _ & Hui & _).
  fold w' in Hs, Hui. rewrite Hs, Hui. unfold reply, answer_shown.
  rewrite Hatt, Hg. destruct (get_axes fig p) as [|ax axs]; [done|].
  cbn. split; [done|]. apply last_snoc.
Qed.

(** A figure created while the question was handled is on no answer stored
    before. *)
Lemma new_figure_on_no_earlier_answer (ms : list Message) (w : World) (fig : nat) :
  (∀ m f, m ∈ ms → plot_of m = Some f → (f < length (fig_heap (plt w)))%nat) →
  (length (fig_heap (plt w)) ≤ fig)%nat →
  ∀ m, m ∈ ms → plot_of m ≠ Some fig.
Proof. intros Hinv Hnew m Hm Hp. specialize (Hinv m fig Hm Hp). lia. Qed.

(** C3 fails when two questions are answered with charts drawn by plotting
    calls on the current figure ([plt.hist], [plt.scatter], ...): the figure
    of the first answer is still the current one, [plt.clf()] clears that
    very object, the second chart is drawn on it, and the same Figure object
    is then attached to both stored answers, showing the second chart. *)
Theorem second_chart_is_also_on_the_first_answer :
  let w1 := world_after (script_run sample_env (ask (Some "histograma"))) fresh_world in
  let w2 := world_after (script_run sample_env (ask (Some "dispersao"))) w1 in
  let w3 := world_after (script_run sample_env (ask None)) w2 in
  ∃ m1 m2,
    messages (session_state w2) =
      Some [HumanMessage "histograma"; m1; HumanMessage "dispersao"; m2] ∧
    content m1 = "Segue o histograma." ∧
    content m2 = "Segue a dispersão." ∧
    plot_of m1 = Some 0 ∧
    plot_of m2 = Some 0 ∧
    get_axes 0 (plt w1) = [["hist(total)"]] ∧
    get_axes 0 (plt w2) = [["scatter(mes,total)"]] ∧
    (* the transcript as the next run shows it *)
    drop 8 (ui w3) =
      [st_chat_message "human"; st_markdown "histograma";
       st_chat_message "ai"; st_markdown "Segue o histograma.";
       st_pyplot 0 [["scatter(mes,total)"]];
       st_chat_message "human"; st_markdown "dispersao";
       st_chat_message "ai"; st_markdown "Segue a dispersão.";
       st_pyplot 0 [["scatter(mes,total)"]]].
Proof.
  vm_compute. eexists _, _. split; [reflexivity|]. split_and!; reflexivity.
Qed.

(** ** A run of the script *)

Lemma same_store_load_csv (E : Env) (f : UploadedFile) :
  keeps (same store) (load_csv E f).
Proof.
  intros w. unfold world_after. rewrite load_csv_run. cbn zeta.
  by destruct (pd_read_csv E f).
Qed.

(** A run of [main] in which no question is submitted does not touch
    [store]. *)
Lemma main_without_question_store (E : Env) (inp : Inputs) :
  chat_input inp = None → keeps (same store) (main E inp).
Proof.
  intros Hnone. unfold main, handle_chat_interaction. rewrite Hnone.
  repeat first
    [ apply keeps_render_sidebar; first [exact _|done]
    | apply keeps_initialize_session_state; first [exact _|done]
    | apply keeps_the_messages; first [exact _|done]
    | apply keeps_show_messages; first [exact _|done]
    | apply same_store_load_csv
    | apply keeps_get_llm; first [exact _|done]
    | apply keeps_initialize_agent; first [exact _|done]
    | progress keeps_with ltac:(reflexivity) ].
Qed.

(** What is in [store] before a run of the script is not there in the
    run: the script starts by binding [store] to a new, empty dict. *)
Lemma script_run_starts_main_with_empty_store (E : Env) (inp : Inputs) (w : World) :
  ∃ w0, store w0 = ∅ ∧ script_run E inp w = main E inp w0.
Proof.
  unfold script_run. rewrite run_bind, run_modify, run_bind.
  destruct (reset_clicked inp) as [now|].
  - rewrite clear_chat_history_run, run_bind, run_modify.
    eexists. split; [|reflexivity]. reflexivity.
  - cbn [ret mret M_ret]. rewrite run_bind, run_modify.
    eexists. split; [|reflexivity]. reflexivity.
Qed.

(** After a run in which no question is submitted, [store] is empty,
    whatever it held before. *)
Lemma script_run_without_question_empties_store (E : Env) (inp : Inputs) (w : World) :
  chat_input inp = None →
  store (world_after (script_run E inp) w) = ∅.
Proof.
  intros Hnone.
  destruct (script_run_starts_main_with_empty_store E inp w) as (w0 & Hempty & Hrun).
  unfold world_after. rewrite Hrun, <- Hempty.
  by apply main_without_question_store.
Qed.

(** Within a run, the two functions named by C9 do keep what [store]
    holds: [get_session_history] keeps every entry and its history, and the
    reset does not touch [store] or the history objects. *)
Lemma store_kept_within_a_run (sid other : string) (h : nat) (now : string) (w : World) :
  wf_store w →
  store w !! other = Some h →
  (store (world_after (get_session_history sid) w) !! other = Some h ∧
   history_of (world_after (get_session_history sid) w) other = history_of w other) ∧
  store (world_after (clear_chat_history now) w) = store w ∧
  histories (world_after (clear_chat_history now) w) = histories w.
Proof.
  intros Hwf Ho. destruct Hwf as [Hb Hi].
  destruct (get_session_history_keeps sid other h w Ho (Hb _ _ Ho)) as [Hk1 Hk2].
  split_and!.
  - done.
  - unfold history_of. rewrite Hk1, Ho. cbn. done.
  - by apply (keeps_clear_chat_history (same store)).
  - by apply (keeps_clear_chat_history (same histories)).
Qed.

(** C9 fails across runs of the script: the history created for the
    session while a question is answered is in [store] at the end of that
    run, and is gone after the next run, in which the user does nothing but
    let the page reload: [store = {}] has been executed again. *)
Theorem store_is_emptied_by_the_next_run :
  let sid := "session_1700000000.5" in
  let w1 := world_after (script_run sample_env (ask (Some "media"))) fresh_world in
  let w2 := world_after (script_run sample_env (ask None)) w1 in
  session_id (session_state w1) = Some sid ∧
  session_id (session_state w2) = Some sid ∧
  history_of w1 sid = Some [HumanMessage "media"; AIMessage "A média é 11.00." ∅] ∧
  store w2 !! sid = None ∧
  history_of w2 sid = None.
Proof. vm_compute. split_and!; reflexivity. Qed.

(** ** A file that cannot be parsed *)

Lemma render_sidebar_run (inp : Inputs) (w : World) :
  ∃ els, render_sidebar inp w =
           (inr (entered_key inp, file_uploader inp), set_ui (ui w ++ els) w).
Proof.
  assert (H1 : bool_decide ("KeyError" ∈ ["KeyError"; "FileNotFoundError"]) = true)
    by (apply bool_decide_eq_true_2; set_solver).
  assert (H2 : bool_decide ("FileNotFoundError" ∈ ["KeyError"; "FileNotFoundError"]) = true)
    by (apply bool_decide_eq_true_2; set_solver).
  unfold render_sidebar, try_except_of, secrets_getitem, entered_key.
  destruct (secrets inp) as [s|]; [destruct (s !! "GOOGLE_API_KEY") as [k|]|];
    run_all; cbn [exn_class KeyError]; rewrite ?H1, ?H2; run_all;
    eexists; rewrite <- ?app_assoc; reflexivity.
Qed.

Lemma show_messages_run (ms : list Message) (w : World) :
  ∃ els, show_messages ms w = (inr tt, set_ui (ui w ++ els) w).
Proof.
  revert w. induction ms as [|m ms IH]; intros w; cbn [show_messages].
  - exists []. rewrite app_nil_r. by destruct w.
  - run_all.
    destruct (additional_kwargs m !! "plot") as [fig|]; run_all;
      match goal with |- context [show_messages ms ?W] =>
        destruct (IH W) as [els Hels]; rewrite Hels end;
      eexists; cbn; rewrite <- ?app_assoc; reflexivity.
Qed.

(** C1: when [pd.read_csv] raises on the uploaded file, [load_csv] raises
    nothing, returns [None] and shows the error with the text of the
    exception.  A run of [main] with that upload raises nothing either, calls
    no service but the CSV reader (no model client, no agent, no agent
    invocation), leaves the transcript, [store] and the histories as they
    were even if a question was typed, and, once an API key is there so that
    the file is read at all, ends the page with that error. *)
Theorem unparsable_csv_is_reported (E : Env) (f : UploadedFile) (e : Exception)
    (inp : Inputs) (w : World) :
  pd_read_csv E f = inl e →
  file_uploader inp = Some f →
  let shown := st_error ("Erro ao carregar o arquivo CSV: " +:+ exn_text e) in
  let w' := world_after (main E inp) w in
  result_of (load_csv E f) w = inr None ∧
  ui (world_after (load_csv E f) w) = ui w ++ [shown] ∧
  result_of (main E inp) w = inr tt ∧
  calls w' = calls w ++ (if truthy (entered_key inp) then [call_read_csv f] else []) ∧
  messages (session_state w') = Some (default [] (messages (session_state w))) ∧
  store w' = store w ∧
  histories w' = histories w ∧
  plt w' = plt w ∧
  (truthy (entered_key inp) = true → last (ui w') = Some shown).
Proof.
  intros Hbad Hfile shown w'. subst w'.
  split.
  { unfold result_of. rewrite load_csv_run, Hbad. reflexivity. }
  split.
  { unfold world_after. rewrite load_csv_run, Hbad. reflexivity. }
  unfold result_of, world_after, main. run_all.
  match goal with |- context [render_sidebar inp ?W] =>
    destruct (render_sidebar_run inp W) as [els Hside]; rewrite Hside end.
  run_all. rewrite Hfile.
  unfold initialize_session_state. run_all.
  destruct (truthy (entered_key inp)) eqn:Hkey; cbn [negb]; run_all.
  2: { rewrite app_nil_r.
       destruct w as [[[m|] [s|] dl] st hs p fr u c]; cbn; done. }
  unfold the_messages. run_all.
  destruct w as [[m s dl] st hs p fr u c].
  destruct m as [ms|], s as [sid|]; run_all;
    match goal with |- context [show_messages ?l ?W] =>
      destruct (show_messages_run l W) as [els2 Hshow]; rewrite Hshow end;
    run_all; rewrite load_csv_run, Hbad; run_all;
    (split_and!; try done); intros _; apply last_snoc.
Qed.

Lemma unparsable_csv_is_reported_witness :
  let e := Exc "ParserError" "Error tokenizing data" in
  let inp := mkInputs None "chave" (Some broken_csv) (Some "media") "1700000000.5" None in
  let shown := st_error ("Erro ao carregar o arquivo CSV: " +:+ exn_text e) in
  let w' := world_after (main sample_env inp) fresh_world in
  result_of (load_csv sample_env broken_csv) fresh_world = inr None ∧
  ui (world_after (load_csv sample_env broken_csv) fresh_world) = ui fresh_world ++ [shown] ∧
  result_of (main sample_env inp) fresh_world = inr tt ∧
  calls w' = calls fresh_world ++
    (if truthy (entered_key inp) then [call_read_csv broken_csv] else []) ∧
  messages (session_state w') = Some (default [] (messages (session_state fresh_world))) ∧
  store w' = store fresh_world ∧
  histories w' = histories fresh_world ∧
  plt w' = plt fresh_world ∧
  (truthy (entered_key inp) = true → last (ui w') = Some shown).
Proof.
  intros e inp.
  apply (unparsable_csv_is_reported sample_env broken_csv e inp fresh_world);
    vm_compute; reflexivity.
Defined.

(** ** Two questions, run by run *)

Lemma get_llm_run (E : Env) (key : string) (w : World) :
  get_llm E key w =
    let llm := mkLLM "gemini-2.5-flash" key 0 true in
    let w0 := set_calls (calls w ++ [call_ChatGoogleGenerativeAI key]) w in
    match llm_error E llm with
    | Some e => (inl e, w0)
    | None => (inr llm, w0)
    end.
Proof. unfold get_llm. unfold_M. cbn. by destruct (llm_error E _). Qed.

(** A run of [main] in which a question is submitted comes to
    [handle_chat_interaction] with the transcript of the session, created
    empty if the session had none. *)
Lemma main_reaches_the_chat (E : Env) (inp : Inputs) (q : string) (w : World) :
  asks E inp q →
  ∃ wpre a handler,
    messages (session_state wpre) = Some (default [] (messages (session_state w))) ∧
    session_id (session_state wpre) =
      Some (default ("session_" +:+ clock inp) (session_id (session_state w))) ∧
    store wpre = store w ∧
    main E inp w = try_except (handle_chat_interaction E a (Some q)) handler wpre.
Proof.
  intros (Hkey & (f & d & Hfile & Hparse) & Hllm & Hq & Ht).
  unfold main. run_all.
  match goal with |- context [render_sidebar inp ?W] =>
    destruct (render_sidebar_run inp W) as [els Hside]; rewrite Hside; clear Hside end.
  run_all. rewrite Hfile, Hkey. cbn [negb].
  unfold initialize_session_state, the_messages. run_all.
  destruct w as [[m s dl] st hs p fr u c].
  destruct m as [ms0|], s as [sid|]; run_all;
    match goal with |- context [show_messages ?l ?W] =>
      destruct (show_messages_run l W) as [els2 Hshow]; rewrite Hshow; clear Hshow end;
    run_all; rewrite load_csv_run, Hparse; run_all;
    (destruct dl as [[|]|]; cbn [default negb id]; run_all);
    rewrite get_llm_run; cbn zeta; rewrite Hllm; run_all;
    unfold initialize_agent, record_call; run_all;
    rewrite Hq; eexists _, _, _; (split_and!; [| | |reflexivity]); reflexivity.
Qed.

(** Such a run appends the question and one answer to the transcript. *)
Lemma main_handles_question (E : Env) (inp : Inputs) (q : string) (w : World) :
  asks E inp q →
  ∃ answer,
    mtype answer = ai ∧
    result_of (main E inp) w = inr tt ∧
    messages (session_state (world_after (main E inp) w)) =
      Some (default [] (messages (session_state w)) ++ [HumanMessage q; answer]).
Proof.
  intros Hasks.
  destruct (main_reaches_the_chat E inp q w Hasks) as (wpre & a & handler & Hms & _ & _ & Hmain).
  destruct Hasks as (_ & _ & _ & _ & Ht).
  destruct (handle_chat_interaction_run E a q _ wpre Ht Hms) as (Hr & Hs & _).
  unfold result_of, world_after in *. rewrite Hmain, run_try_except.
  destruct (handle_chat_interaction E a (Some q) wpre) as [r W']. cbn in Hr, Hs.
  subst r. exists (reply E a q wpre). cbn [fst snd]. rewrite Hs.
  split; [apply reply_is_ai|]. split; reflexivity.
Qed.

Lemma script_run_handles_question (E : Env) (inp : Inputs) (q : string) (w : World) :
  asks E inp q →
  ∃ answer,
    mtype answer = ai ∧
    result_of (script_run E inp) w = inr tt ∧
    messages (session_state (world_after (script_run E inp) w)) =
      Some (match reset_clicked inp with
            | Some _ => []
            | None => default [] (messages (session_state w))
            end ++ [HumanMessage q; answer]).
Proof.
  intros Hasks. unfold result_of, world_after, script_run.
  rewrite run_bind, run_modify, run_bind.
  destruct (reset_clicked inp) as [now|].
  - rewrite clear_chat_history_run, run_bind, run_modify.
    match goal with |- context [main E inp ?W] =>
      destruct (main_handles_question E inp q W Hasks) as (answer & Ha & Hr & Hm) end.
    exists answer. by split_and!.
  - cbn [ret mret M_ret]. rewrite run_bind, run_modify.
    match goal with |- context [main E inp ?W] =>
      destruct (main_handles_question E inp q W Hasks) as (answer & Ha & Hr & Hm) end.
    exists answer. by split_and!.
Qed.

(** The two questions of C5 as they come in the running application: two
    runs of the script, the second with no reset, in each of which a
    question is submitted.  Both questions are in the transcript afterwards,
    in that order, although the second run started by emptying [store]. *)
Lemma two_runs_two_questions (E : Env) (inp1 inp2 : Inputs) (q1 q2 : string) (w : World) :
  asks E inp1 q1 →
  asks E inp2 q2 →
  reset_clicked inp1 = None →
  reset_clicked inp2 = None →
  let w1 := world_after (script_run E inp1) w in
  let w2 := world_after (script_run E inp2) w1 in
  ∃ answer1 answer2,
    messages (session_state w2) =
      Some (default [] (messages (session_state w))
              ++ [HumanMessage q1; answer1; HumanMessage q2; answer2]).
Proof.
  intros H1 H2 Hr1 Hr2 w1 w2.
  destruct (script_run_handles_question E inp1 q1 w H1) as (a1 & _ & _ & Hm1).
  destruct (script_run_handles_question E inp2 q2 w1 H2) as (a2 & _ & _ & Hm2).
  fold w1 in Hm1. fold w2 in Hm2. rewrite Hr1 in Hm1. rewrite Hr2, Hm1 in Hm2.
  exists a1, a2. rewrite Hm2.
  change (default [] (Some ?x)) with x. by rewrite <- app_assoc.
Qed.

Lemma sample_run_asks : asks sample_env (ask (Some "media")) "media".
Proof.
  unfold asks. split_and!; try reflexivity.
  exists sample_csv, sample_frame. split; reflexivity.
Qed.

(** The same two runs seen from [store]: the history that the agent is
    given in the second run is the one created in that run, and after it the
    history of the session holds the second question alone. *)
Lemma history_after_two_runs :
  let sid := "session_1700000000.5" in
  let w1 := world_after (script_run sample_env (ask (Some "media"))) fresh_world in
  let w2 := world_after (script_run sample_env (ask (Some "histograma"))) w1 in
  messages (session_state w2) =
    Some [HumanMessage "media"; AIMessage "A média é 11.00." ∅;
          HumanMessage "histograma"; AIMessage "Segue o histograma." {["plot" := 0]}] ∧
  history_of w1 sid = Some [HumanMessage "media"; AIMessage "A média é 11.00." ∅] ∧
  history_of w2 sid =
    Some [HumanMessage "histograma"; AIMessage "Segue o histograma." ∅].
Proof. vm_compute. split_and!; reflexivity. Qed.

(** * More of the script *)

(** Evaluation of [main] up to a call of [render_sidebar] or of the loop
    that shows the transcript. *)
Ltac eval_sidebar :=
  match goal with |- context [render_sidebar ?inp ?W] =>
    let els := fresh "els" in
    let H := fresh "Hside" in
    destruct (render_sidebar_run inp W) as [els H]; rewrite H; clear H
  end.

Ltac eval_show_messages :=
  match goal with |- context [show_messages ?l ?W] =>
    let els := fresh "els" in
    let H := fresh "Hshow" in
    destruct (show_messages_run l W) as [els H]; rewrite H; clear H
  end.

(** ** The store, again *)

(** X10: a second lookup of the same identifier hands back the same
    history object and changes nothing: the entry created by the first call
    is the one found by the second. *)
Theorem get_session_history_twice (sid : string) (w : World) :
  let w1 := world_after (get_session_history sid) w in
  get_session_history sid w1 = (result_of (get_session_history sid) w, w1) ∧
  ∃ h, result_of (get_session_history sid) w = inr h ∧ store w1 !! sid = Some h.
Proof.
  intros w1. subst w1. unfold result_of, world_after.
  rewrite (get_session_history_run sid w).
  destruct (store w !! sid) as [h|] eqn:Hs; cbn [fst snd].
  - rewrite get_session_history_run, Hs. eauto.
  - rewrite get_session_history_run. cbn [store set_store set_histories].
    rewrite lookup_insert_eq. eauto.
Qed.

(** ** The sidebar *)

(** X3: the key of the secrets store wins over the text field.  When
    [st.secrets] holds [GOOGLE_API_KEY], [render_sidebar] returns it, confirms
    it and shows no text field; when there is no secrets file, or no such key
    in it, it warns, shows the text field and returns what was typed there.
    In both cases it returns the uploaded file, shows the uploader, the reset
    button and the help, and touches nothing but the page. *)
Theorem render_sidebar_key (inp : Inputs) (w : World) :
  let in_secrets := s ← secrets inp; s !! "GOOGLE_API_KEY" in
  render_sidebar inp w =
    (inr (default (text_input inp) in_secrets, file_uploader inp),
     set_ui (ui w
             ++ [st_header "Configurações"]
             ++ match in_secrets with
                | Some _ => [st_success "Chave de API carregada com segurança!"]
                | None =>
                    [st_warning "Chave de API não encontrada nos segredos do Streamlit.";
                     st_text_input "Insira sua Chave de API do Google Gemini"]
                end
             ++ [st_file_uploader "Carregue seu arquivo CSV";
                 st_button "Sair e Limpar Conversa";
                 st_info "**Como usar:**"]) w).
Proof.
  assert (H1 : bool_decide ("KeyError" ∈ ["KeyError"; "FileNotFoundError"]) = true)
    by (apply bool_decide_eq_true_2; set_solver).
  assert (H2 : bool_decide ("FileNotFoundError" ∈ ["KeyError"; "FileNotFoundError"]) = true)
    by (apply bool_decide_eq_true_2; set_solver).
  unfold render_sidebar, try_except_of, secrets_getitem.
  destruct (secrets inp) as [s|]; cbn [mbind option_bind];
    [destruct (s !! "GOOGLE_API_KEY") as [k|]|];
    run_all; cbn [exn_class KeyError]; rewrite ?H1, ?H2; run_all;
    cbn [default]; rewrite <- ?app_assoc; reflexivity.
Qed.

(** ** The page *)

Lemma previews_app (a b : list Element) : previews (a ++ b) = previews a ++ previews b.
Proof. induction a as [|[] a IH]; cbn; by rewrite ?IH. Qed.

Lemma markdowns_app (a b : list Element) : markdowns (a ++ b) = markdowns a ++ markdowns b.
Proof. induction a as [|[] a IH]; cbn; by rewrite ?IH. Qed.

Lemma chat_roles_app (a b : list Element) : chat_roles (a ++ b) = chat_roles a ++ chat_roles b.
Proof. induction a as [|[] a IH]; cbn; by rewrite ?IH. Qed.

Lemma pyplots_app (a b : list Element) : pyplots (a ++ b) = pyplots a ++ pyplots b.
Proof. induction a as [|[] a IH]; cbn; by rewrite ?IH. Qed.

(** The sidebar shows no chat bubble, no text of the transcript, no
    preview and no figure. *)
Lemma render_sidebar_page (inp : Inputs) (w : World) :
  ∃ els, render_sidebar inp w =
           (inr (entered_key inp, file_uploader inp), set_ui (ui w ++ els) w) ∧
         chat_roles els = [] ∧ markdowns els = [] ∧
         previews els = [] ∧ pyplots els = [].
Proof.
  assert (H1 : bool_decide ("KeyError" ∈ ["KeyError"; "FileNotFoundError"]) = true)
    by (apply bool_decide_eq_true_2; set_solver).
  assert (H2 : bool_decide ("FileNotFoundError" ∈ ["KeyError"; "FileNotFoundError"]) = true)
    by (apply bool_decide_eq_true_2; set_solver).
  unfold render_sidebar, try_except_of, secrets_getitem, entered_key.
  destruct (secrets inp) as [s|]; [destruct (s !! "GOOGLE_API_KEY") as [k|]|];
    run_all; cbn [exn_class KeyError]; rewrite ?H1, ?H2; run_all;
    eexists; (split; [rewrite <- ?app_assoc; reflexivity|]); by cbn.
Qed.

(** The loop of [main] shows the whole transcript in its order: for each
    message a bubble of its type and its text, and the attached figure if
    there is one. *)
Lemma show_messages_page (ms : list Message) (w : World) :
  ∃ els, show_messages ms w = (inr tt, set_ui (ui w ++ els) w) ∧
         chat_roles els = map (λ m, type_name (mtype m)) ms ∧
         markdowns els = map content ms ∧
         pyplots els = omap plot_of ms ∧
         previews els = [].
Proof.
  revert w. induction ms as [|m ms IH]; intros w; cbn [show_messages].
  - exists []. rewrite app_nil_r. split; [by destruct w|done].
  - run_all.
    destruct (additional_kwargs m !! "plot") as [fig|] eqn:Hplot; run_all;
      match goal with |- context [show_messages ms ?W] =>
        destruct (IH W) as (els & Hels & Hr & Hm & Hp & Hv); rewrite Hels end;
      eexists; (split; [cbn; rewrite <- ?app_assoc; reflexivity|]);
      cbn; unfold plot_of at 1; rewrite Hplot, Hr, Hm, Hv, Hp; done.
Qed.

(** X12: the loop that shows the transcript touches nothing but the page,
    and what it adds to the page is the transcript in its order: the roles
    of the bubbles are the types of the messages, the texts are their
    contents, and the figures are those attached to the messages that have
    one. *)
Theorem transcript_is_shown_in_order (ms : list Message) (w : World) :
  ∃ els,
    show_messages ms w = (inr tt, set_ui (ui w ++ els) w) ∧
    chat_roles els = map (λ m, type_name (mtype m)) ms ∧
    markdowns els = map content ms ∧
    pyplots els = omap plot_of ms.
Proof.
  destruct (show_messages_page ms w) as (els & H & Hr & Hm & Hp & _).
  by exists els.
Qed.

(** ** The ways out of [main] *)

Ltac eval_sidebar_page :=
  match goal with |- context [render_sidebar ?inp ?W] =>
    let els := fresh "side" in
    destruct (render_sidebar_page inp W) as (els & Hside & Hside_r & Hside_m & Hside_v & Hside_p);
    rewrite Hside; clear Hside
  end.

Ltac eval_show_messages_page :=
  match goal with |- context [show_messages ?l ?W] =>
    let els := fresh "shown" in
    destruct (show_messages_page l W) as (els & Hshow & Hshow_r & Hshow_m & Hshow_p & Hshow_v);
    rewrite Hshow; clear Hshow
  end.

Lemma initialize_session_state_world (now : string) (w : World) :
  initialize_session_state now w =
    (inr tt, set_session_state (initialized now (session_state w)) w).
Proof.
  unfold initialize_session_state, initialized. run_all.
  by destruct (session_state w) as [[ms|] [sid|] dl].
Qed.

(** X1: without an API key (none in the secrets, nothing typed) [main]
    stops after the sidebar: it initialises the session state, ends the page
    with the request for a key, shows neither the transcript nor a preview,
    reads no file, builds no client and no agent, and raises nothing. *)
Theorem main_without_key (E : Env) (inp : Inputs) (w : World) :
  truthy (entered_key inp) = false →
  let w' := world_after (main E inp) w in
  result_of (main E inp) w = inr tt ∧
  session_state w' = initialized (clock inp) (session_state w) ∧
  last (ui w') =
    Some (st_warning "Por favor, insira sua chave de API na barra lateral para começar.") ∧
  chat_roles (ui w') = chat_roles (ui w) ∧
  previews (ui w') = previews (ui w) ∧
  calls w' = calls w ∧
  frames w' = frames w ∧
  store w' = store w ∧
  histories w' = histories w ∧
  plt w' = plt w.
Proof.
  intros Hkey w'. subst w'. unfold result_of, world_after, main.
  run_all. eval_sidebar_page. run_all.
  rewrite initialize_session_state_world, Hkey. cbn [negb]. run_all.
  split_and!; try reflexivity.
  - apply last_snoc.
  - rewrite !chat_roles_app, Hside_r. cbn. by rewrite !app_nil_r.
  - rewrite !previews_app, Hside_v. cbn. by rewrite !app_nil_r.
Qed.

Lemma main_without_key_witness :
  let inp := mkInputs None "" (Some sample_csv) (Some "media") "1700000000.5" None in
  let w' := world_after (main sample_env inp) fresh_world in
  result_of (main sample_env inp) fresh_world = inr tt ∧
  session_state w' = initialized (clock inp) (session_state fresh_world) ∧
  last (ui w') =
    Some (st_warning "Por favor, insira sua chave de API na barra lateral para começar.") ∧
  chat_roles (ui w') = chat_roles (ui fresh_world) ∧
  previews (ui w') = previews (ui fresh_world) ∧
  calls w' = calls fresh_world ∧
  frames w' = frames fresh_world ∧
  store w' = store fresh_world ∧
  histories w' = histories fresh_world ∧
  plt w' = plt fresh_world.
Proof.
  intros inp.
  apply (main_without_key sample_env inp fresh_world). vm_compute. reflexivity.
Defined.

(** X2: with a key but no uploaded file [main] stops likewise: the page
    ends with the notice that a file is awaited, the transcript is not
    shown, nothing is read and no client or agent is built. *)
Theorem main_without_file (E : Env) (inp : Inputs) (w : World) :
  truthy (entered_key inp) = true →
  file_uploader inp = None →
  let w' := world_after (main E inp) w in
  result_of (main E inp) w = inr tt ∧
  session_state w' = initialized (clock inp) (session_state w) ∧
  last (ui w') = Some (st_info "Aguardando o carregamento de um arquivo CSV...") ∧
  chat_roles (ui w') = chat_roles (ui w) ∧
  previews (ui w') = previews (ui w) ∧
  calls w' = calls w ∧
  frames w' = frames w ∧
  store w' = store w ∧
  histories w' = histories w ∧
  plt w' = plt w.
Proof.
  intros Hkey Hfile w'. subst w'. unfold result_of, world_after, main.
  run_all. eval_sidebar_page. run_all.
  rewrite initialize_session_state_world, Hkey, Hfile. cbn [negb]. run_all.
  split_and!; try reflexivity.
  - apply last_snoc.
  - rewrite !chat_roles_app, Hside_r. cbn. by rewrite !app_nil_r.
  - rewrite !previews_app, Hside_v. cbn. by rewrite !app_nil_r.
Qed.

Lemma main_without_file_witness :
  let inp := mkInputs None "chave" None (Some "media") "1700000000.5" None in
  let w' := world_after (main sample_env inp) loaded_world in
  result_of (main sample_env inp) loaded_world = inr tt ∧
  session_state w' = initialized (clock inp) (session_state loaded_world) ∧
  last (ui w') = Some (st_info "Aguardando o carregamento de um arquivo CSV...") ∧
  chat_roles (ui w') = chat_roles (ui loaded_world) ∧
  previews (ui w') = previews (ui loaded_world) ∧
  calls w' = calls loaded_world ∧
  frames w' = frames loaded_world ∧
  store w' = store loaded_world ∧
  histories w' = histories loaded_world ∧
  plt w' = plt loaded_world.
Proof.
  intros inp.
  apply (main_without_file sample_env inp loaded_world); vm_compute; reflexivity.
Defined.

(** Evaluation that leaves a [try]/[except] block whole. *)
Ltac run_quiet :=
  repeat first
    [ rewrite run_bind | rewrite run_show | rewrite run_modify
    | rewrite messages_append_run | rewrite the_session_id_run
    | progress cbn [fst snd ret mret M_ret get_world raise session_state store
                    histories plt frames ui calls messages session_id df_loaded
                    set_session_state set_store set_histories set_plt set_frames
                    set_ui set_calls] ].

(** A block whose handler only shows a message never raises. *)
Lemma try_except_show_returns (body : M unit) (shown : Exception → Element) (w : World) :
  result_of (try_except body (λ e, show (shown e))) w = inr tt.
Proof.
  unfold result_of. rewrite run_try_except.
  by destruct (body w) as [[e|[]] w'].
Qed.

(** Evaluation of [main] from its first line to the call of [load_csv],
    for a key and an uploaded file. *)
Ltac main_to_load Hkey Hfile :=
  unfold main; run_quiet; eval_sidebar_page; run_quiet;
  rewrite initialize_session_state_world, Hkey, Hfile; cbn [negb]; run_quiet;
  unfold the_messages, initialized; run_quiet;
  eval_show_messages_page; run_quiet; rewrite load_csv_run.

(** X13: no exception leaves [main], whatever the widgets hold, whatever
    the state of the session, and whatever the CSV reader, the model client
    and the agent do: every failure of theirs ends as a message on the
    page.  The same holds for a whole run of the script. *)
Theorem main_never_raises (E : Env) (inp : Inputs) (w : World) :
  result_of (main E inp) w = inr tt ∧
  result_of (script_run E inp) w = inr tt.
Proof.
  assert (Hmain : ∀ v, result_of (main E inp) v = inr tt).
  { intros v. unfold result_of.
    destruct (truthy (entered_key inp)) eqn:Hkey.
    2: { unfold main. run_quiet. eval_sidebar_page. run_quiet.
         rewrite initialize_session_state_world, Hkey. cbn [negb]. by run_quiet. }
    destruct (file_uploader inp) as [f|] eqn:Hfile.
    2: { unfold main. run_quiet. eval_sidebar_page. run_quiet.
         rewrite initialize_session_state_world, Hkey, Hfile. cbn [negb]. by run_quiet. }
    main_to_load Hkey Hfile. cbn zeta.
    destruct (pd_read_csv E f) as [e|d]; run_quiet; [done|].
    destruct (df_loaded (session_state v)) as [[|]|]; cbn [default negb id]; run_quiet;
      apply try_except_show_returns. }
  split; [apply Hmain|].
  destruct (script_run_starts_main_with_empty_store E inp w) as (w0 & _ & Hrun).
  unfold result_of. rewrite Hrun. apply Hmain.
Qed.

(** X4: when the model client cannot be built, the failure is caught in
    [main]: the page ends with the critical error carrying the text of the
    exception, no agent is built and nothing is invoked, and a question typed
    in that run is not handled: the transcript stays as it was. *)
Theorem client_failure_is_reported (E : Env) (inp : Inputs) (f : UploadedFile)
    (d : DataFrame) (e : Exception) (w : World) :
  truthy (entered_key inp) = true →
  file_uploader inp = Some f →
  pd_read_csv E f = inr d →
  llm_error E (mkLLM "gemini-2.5-flash" (entered_key inp) 0 true) = Some e →
  let w' := world_after (main E inp) w in
  result_of (main E inp) w = inr tt ∧
  last (ui w') =
    Some (st_error ("Ocorreu um erro crítico ao inicializar o agente: " +:+ exn_text e)) ∧
  messages (session_state w') = Some (default [] (messages (session_state w))) ∧
  calls w' = calls w ++ [call_read_csv f; call_ChatGoogleGenerativeAI (entered_key inp)] ∧
  store w' = store w ∧
  histories w' = histories w ∧
  plt w' = plt w.
Proof.
  intros Hkey Hfile Hparse Hllm w'. subst w'. unfold result_of, world_after.
  main_to_load Hkey Hfile. rewrite Hparse. cbn zeta. run_quiet.
  destruct (df_loaded (session_state w)) as [[|]|]; cbn [default negb id]; run_quiet;
    rewrite run_try_except, run_bind, get_llm_run; cbn zeta; rewrite Hllm; run_quiet;
    (split_and!; try reflexivity); try apply last_snoc; by rewrite <- app_assoc.
Qed.

Lemma client_failure_is_reported_witness :
  let e := Exc "ValueError" "API key not valid" in
  let inp := ask (Some "media") in
  let w' := world_after (main no_client_env inp) fresh_world in
  result_of (main no_client_env inp) fresh_world = inr tt ∧
  last (ui w') =
    Some (st_error ("Ocorreu um erro crítico ao inicializar o agente: " +:+ exn_text e)) ∧
  messages (session_state w') = Some (default [] (messages (session_state fresh_world))) ∧
  calls w' = calls fresh_world
             ++ [call_read_csv sample_csv; call_ChatGoogleGenerativeAI (entered_key inp)] ∧
  store w' = store fresh_world ∧
  histories w' = histories fresh_world ∧
  plt w' = plt fresh_world.
Proof.
  intros e inp.
  apply (client_failure_is_reported no_client_env inp sample_csv sample_frame e fresh_world);
    vm_compute; reflexivity.
Defined.

(** ** The preview *)

(** Handling a question puts no preview on the page and leaves the flag
    [df_loaded] alone. *)
Lemma handle_chat_interaction_preview (E : Env) (a : RunnableWithMessageHistory)
    (p : option string) :
  keeps (same (λ w, (previews (ui w), df_loaded (session_state w))))
    (handle_chat_interaction E a p).
Proof.
  unfold handle_chat_interaction, invoke, get_session_history, add_messages,
    messages_append, the_messages, the_session_id.
  repeat first
    [ progress keeps_with ltac:(unfold same; cbn; rewrite ?previews_app; cbn;
                                rewrite ?app_nil_r; reflexivity)
    | progress cbn zeta ].
Qed.

Lemma main_tail_preview (E : Env) (key : string) (df : nat) (p : option string)
    (h : Exception → string) :
  keeps (same (λ w, (previews (ui w), df_loaded (session_state w))))
    (try_except
       (llm ← get_llm E key;
        agent_with_memory ← initialize_agent llm df;
        handle_chat_interaction E agent_with_memory p)
       (λ e, show (st_error (h e)))).
Proof.
  apply keeps_try_except; [exact _| |].
  - apply keeps_bind; [exact _| |intros llm].
    { apply keeps_get_llm; first [exact _|done]. }
    apply keeps_bind; [exact _| |intros a].
    { apply keeps_initialize_agent; first [exact _|done]. }
    apply handle_chat_interaction_preview.
  - intros e. apply keeps_modify. intros v. unfold same. cbn.
    rewrite previews_app. cbn. by rewrite app_nil_r.
Qed.

Lemma main_preview (E : Env) (inp : Inputs) (f : UploadedFile)
    (d : DataFrame) (v : World) :
  truthy (entered_key inp) = true →
  file_uploader inp = Some f →
  pd_read_csv E f = inr d →
  previews (ui (world_after (main E inp) v)) =
    previews (ui v) ++
    (if default false (df_loaded (session_state v)) then [] else [head d]) ∧
  df_loaded (session_state (world_after (main E inp) v)) = Some true.
Proof.
  intros Hkey Hfile Hparse. unfold world_after.
  main_to_load Hkey Hfile. rewrite Hparse. cbn zeta. run_quiet.
  destruct (df_loaded (session_state v)) as [[|]|]; cbn [default negb id]; run_quiet;
    match goal with |- context [try_except ?b ?h ?W] =>
      pose proof (main_tail_preview E (entered_key inp) (length (frames v))
                    (chat_input inp)
                    (λ e, "Ocorreu um erro crítico ao inicializar o agente: "
                          +:+ exn_text e) W) as Ht
    end;
    unfold same, world_after in Ht; cbn in Ht;
    injection Ht as Hp Hd; rewrite Hp, Hd;
    rewrite ?previews_app, ?Hside_v, ?Hshow_v; cbn; rewrite ?app_nil_r;
    try rewrite lookup_app_r by lia; rewrite ?Nat.sub_diag; done.
Qed.

(** X5: the preview of a loaded file is shown once.  In a run of [main]
    with a key and a file that parses, the success notice and the first five
    rows of the frame are shown exactly when the flag [df_loaded] is absent
    or false, nothing else in the run puts a preview on the page, and the
    flag is true afterwards, whatever happens to the question; so the next
    run, on a page drawn anew, shows no preview. *)
Theorem preview_is_shown_once (E : Env) (inp : Inputs) (f : UploadedFile)
    (d : DataFrame) (w : World) :
  truthy (entered_key inp) = true →
  file_uploader inp = Some f →
  pd_read_csv E f = inr d →
  let w' := world_after (main E inp) w in
  previews (ui w') =
    previews (ui w) ++
    (if default false (df_loaded (session_state w)) then [] else [head d]) ∧
  df_loaded (session_state w') = Some true ∧
  previews (ui (world_after (main E inp) (set_ui [] w'))) = [].
Proof.
  intros Hkey Hfile Hparse w'. subst w'.
  destruct (main_preview E inp f d w Hkey Hfile Hparse) as [Hp Hd].
  split_and!; [done..|].
  destruct (main_preview E inp f d (set_ui [] (world_after (main E inp) w))
              Hkey Hfile Hparse) as [Hp2 _].
  rewrite Hp2. cbn [ui set_ui session_state previews app]. by rewrite Hd.
Qed.

Lemma preview_is_shown_once_witness :
  let inp := ask (Some "media") in
  let w' := world_after (main sample_env inp) fresh_world in
  previews (ui w') =
    previews (ui fresh_world) ++
    (if default false (df_loaded (session_state fresh_world)) then []
     else [head sample_frame]) ∧
  df_loaded (session_state w') = Some true ∧
  previews (ui (world_after (main sample_env inp) (set_ui [] w'))) = [].
Proof.
  intros inp.
  apply (preview_is_shown_once sample_env inp sample_csv sample_frame fresh_world);
    vm_compute; reflexivity.
Defined.

(** X16: the reset makes the preview come back.  In a run of the script
    started by the reset button, with a key and a file that parses, the page
    opens with the notice of the reset and shows the preview of the file,
    whether or not it had been shown before. *)
Theorem reset_shows_the_preview_again (E : Env) (inp : Inputs) (f : UploadedFile)
    (d : DataFrame) (now : string) (w : World) :
  truthy (entered_key inp) = true →
  file_uploader inp = Some f →
  pd_read_csv E f = inr d →
  reset_clicked inp = Some now →
  let w' := world_after (script_run E inp) w in
  previews (ui w') = [head d] ∧
  df_loaded (session_state w') = Some true.
Proof.
  intros Hkey Hfile Hparse Hreset w'. subst w'.
  unfold world_after, script_run.
  rewrite run_bind, run_modify, run_bind, Hreset, clear_chat_history_run,
    run_bind, run_modify.
  match goal with |- context [main E inp ?W] =>
    destruct (main_preview E inp f d W Hkey Hfile Hparse) as [Hp Hd] end.
  unfold world_after in Hp, Hd. rewrite Hp, Hd. done.
Qed.

Lemma reset_shows_the_preview_again_witness :
  let inp := mkInputs None "chave" (Some sample_csv) None "1700000000.5"
               (Some "1700000321.25") in
  let w := world_after (script_run sample_env (ask (Some "media"))) fresh_world in
  let w' := world_after (script_run sample_env inp) w in
  previews (ui w') = [head sample_frame] ∧
  df_loaded (session_state w') = Some true.
Proof.
  intros inp w.
  apply (reset_shows_the_preview_again sample_env inp sample_csv sample_frame
           "1700000321.25" w); vm_compute; reflexivity.
Defined.

(** ** Runs in which nothing is asked *)

#[global] Instance session_kept_preorder : PreOrder session_kept.
Proof.
  split.
  - by intros w ms sid Hm Hs.
  - intros w1 w2 w3 H12 H23 ms sid Hm Hs.
    destruct (H12 ms sid Hm Hs) as [Hm2 Hs2]. by apply H23.
Qed.

Lemma truthy_empty : truthy "" = false.
Proof. reflexivity. Qed.

Lemma session_kept_same (w w' : World) :
  messages (session_state w') = messages (session_state w) →
  session_id (session_state w') = session_id (session_state w) →
  session_kept w w'.
Proof. intros Hm Hs ms sid. rewrite Hm, Hs. done. Qed.

Lemma main_without_question_session (E : Env) (inp : Inputs) :
  no_question inp → keeps session_kept (main E inp).
Proof.
  intros Hno. unfold main, handle_chat_interaction.
  assert (Hu : ∀ u w, session_kept w (set_ui u w))
    by (intros; by apply session_kept_same).
  assert (Hc : ∀ c w, session_kept w (set_calls c w))
    by (intros; by apply session_kept_same).
  assert (Hinit : keeps session_kept (initialize_session_state (clock inp))).
  { intros w ms sid Hm Hs. unfold world_after.
    rewrite initialize_session_state_world. unfold initialized. cbn.
    by rewrite Hm, Hs. }
  assert (Hload : ∀ f, keeps session_kept (load_csv E f)).
  { intros f w. unfold world_after. rewrite load_csv_run. cbn zeta.
    destruct (pd_read_csv E f); by apply session_kept_same. }
  destruct Hno as [Hq | Hq]; rewrite Hq; rewrite ?truthy_empty;
  repeat first
    [ apply keeps_render_sidebar; first [exact _|done]
    | exact Hinit
    | apply keeps_the_messages; first [exact _|done]
    | apply keeps_show_messages; first [exact _|done]
    | apply Hload
    | apply keeps_get_llm; first [exact _|done]
    | apply keeps_initialize_agent; first [exact _|done]
    | progress keeps_with ltac:(by apply session_kept_same) ].
Qed.

(** X6: a run of the script in which nothing is submitted in the chat box
    (no input, or an empty one) and the reset button is not pressed leaves
    the transcript and the identifier of the session as they are, whatever
    else the run does (missing key, missing or broken file, failing
    client). *)
Theorem idle_run_keeps_the_session (E : Env) (inp : Inputs)
    (ms : list Message) (sid : string) (w : World) :
  no_question inp →
  reset_clicked inp = None →
  messages (session_state w) = Some ms →
  session_id (session_state w) = Some sid →
  let w' := world_after (script_run E inp) w in
  messages (session_state w') = Some ms ∧
  session_id (session_state w') = Some sid.
Proof.
  intros Hno Hreset Hm Hs w'. subst w'. unfold world_after, script_run.
  rewrite run_bind, run_modify, run_bind, Hreset. cbn [ret mret M_ret].
  rewrite run_bind, run_modify.
  match goal with |- context [main E inp ?W] =>
    apply (main_without_question_session E inp Hno W ms sid) end; done.
Qed.

Lemma idle_run_keeps_the_session_witness :
  let w := world_after (script_run sample_env (ask (Some "media"))) fresh_world in
  let inp := mkInputs None "chave" (Some broken_csv) (Some "") "1700000999.0" None in
  let w' := world_after (script_run sample_env inp) w in
  messages (session_state w') =
    Some [HumanMessage "media"; AIMessage "A média é 11.00." ∅] ∧
  session_id (session_state w') = Some "session_1700000000.5".
Proof.
  intros w inp.
  apply (idle_run_keeps_the_session sample_env inp); [by right|reflexivity|..];
    vm_compute; reflexivity.
Defined.

(** ** The store stays well formed *)

#[global] Instance wf_kept_preorder : PreOrder wf_kept.
Proof.
  split; [by intros w H|]. intros w1 w2 w3 H12 H23 H. by apply H23, H12.
Qed.

Lemma wf_kept_same (w w' : World) :
  store w' = store w → histories w' = histories w → wf_kept w w'.
Proof. intros Hs Hh [Hb Hi]. unfold wf_store. rewrite Hs, Hh. done. Qed.

Lemma get_session_history_wf_kept (sid : string) :
  keeps wf_kept (get_session_history sid).
Proof. intros w H. by apply get_session_history_wf. Qed.

Lemma add_messages_wf_kept (h : nat) (ms : list Message) :
  keeps wf_kept (add_messages h ms).
Proof. intros w H. by apply add_messages_wf. Qed.

Lemma invoke_wf_kept (E : Env) (a : RunnableWithMessageHistory) (q sid : string) :
  keeps wf_kept (invoke E a q sid).
Proof.
  unfold invoke.
  repeat first
    [ apply get_session_history_wf_kept
    | apply add_messages_wf_kept
    | progress keeps_with ltac:(by apply wf_kept_same)
    | progress cbn zeta ].
Qed.

Lemma handle_chat_interaction_wf_kept (E : Env) (a : RunnableWithMessageHistory)
    (p : option string) :
  keeps wf_kept (handle_chat_interaction E a p).
Proof.
  unfold handle_chat_interaction, messages_append, the_messages, the_session_id.
  repeat first
    [ apply invoke_wf_kept
    | progress keeps_with ltac:(by apply wf_kept_same)
    | progress cbn zeta ].
Qed.

Lemma main_wf_kept (E : Env) (inp : Inputs) : keeps wf_kept (main E inp).
Proof.
  unfold main.
  assert (Hs : ∀ s w, wf_kept w (set_session_state s w))
    by (intros; by apply wf_kept_same).
  assert (Hu : ∀ u w, wf_kept w (set_ui u w))
    by (intros; by apply wf_kept_same).
  assert (Hc : ∀ c w, wf_kept w (set_calls c w))
    by (intros; by apply wf_kept_same).
  assert (Hload : ∀ f, keeps wf_kept (load_csv E f)).
  { intros f w. unfold world_after. rewrite load_csv_run. cbn zeta.
    destruct (pd_read_csv E f); by apply wf_kept_same. }
  repeat first
    [ apply keeps_render_sidebar; first [exact _|done]
    | apply keeps_initialize_session_state; first [exact _|done]
    | apply keeps_the_messages; first [exact _|done]
    | apply keeps_show_messages; first [exact _|done]
    | apply Hload
    | apply keeps_get_llm; first [exact _|done]
    | apply keeps_initialize_agent; first [exact _|done]
    | apply handle_chat_interaction_wf_kept
    | progress keeps_with ltac:(by apply wf_kept_same) ].
Qed.

(** X11: [store] is well formed after every run of the script, from any
    state of the process: its entries name existing history objects and no
    object is filed under two identifiers.  Chat handling and [main] keep a
    well-formed store well formed, and every run starts from an empty
    one. *)
Theorem store_is_always_well_formed (E : Env) (inp : Inputs) (w : World) :
  wf_store (world_after (script_run E inp) w) ∧
  (∀ a p, wf_store w → wf_store (world_after (handle_chat_interaction E a p) w)) ∧
  (wf_store w → wf_store (world_after (main E inp) w)).
Proof.
  split_and!.
  - destruct (script_run_starts_main_with_empty_store E inp w) as (w0 & Hempty & Hrun).
    unfold world_after. rewrite Hrun. apply (main_wf_kept E inp w0).
    by apply wf_store_empty.
  - intros a p. apply handle_chat_interaction_wf_kept.
  - apply main_wf_kept.
Qed.

(** ** Answers with and without a chart *)

Lemma chart_attached_to_its_answer_witness :
  let w2 := snd (attempt sample_env sample_runnable "histograma" loaded_world) in
  let w' := world_after
    (handle_chat_interaction sample_env sample_runnable (Some "histograma")) loaded_world in
  messages (session_state w') =
    Some ([] ++ [HumanMessage "histograma";
                 AIMessage "Segue o histograma." {["plot" := 0]}]) ∧
  last (ui w') = Some (st_pyplot 0 (get_axes 0 (snd (plt_gcf (plt w2))))).
Proof.
  intros w2.
  apply (chart_attached_to_its_answer sample_env sample_runnable "histograma"
           "Segue o histograma." [] loaded_world w2 0 (snd (plt_gcf (plt w2))));
    vm_compute; first [reflexivity | discriminate].
Defined.

(** X8: when the agent returned and the current figure has no axes, the
    answer is stored without a figure and its text is what the page shows
    last. *)
Theorem text_answer_has_no_chart (E : Env) (a : RunnableWithMessageHistory)
    (q output : string) (ms : list Message) (w w2 : World) (fig : nat) (p : Pyplot) :
  truthy q = true →
  messages (session_state w) = Some ms →
  attempt E a q w = (inr output, w2) →
  plt_gcf (plt w2) = (fig, p) →
  get_axes fig p = [] →
  let w' := world_after (handle_chat_interaction E a (Some q)) w in
  messages (session_state w') = Some (ms ++ [HumanMessage q; AIMessage output ∅]) ∧
  last (ui w') = Some (st_markdown output) ∧
  pyplots (ui w') = pyplots (ui w2).
Proof.
  intros Ht Hms Hatt Hg Hax w'.
  destruct (handle_chat_interaction_run E a q ms w Ht Hms)
    as (_ & Hs & _ & _ & _ & _ & Hui & _).
  fold w' in Hs, Hui. rewrite Hs, Hui. unfold reply, answer_shown.
  rewrite Hatt, Hg, Hax. cbn [messages snd].
  split_and!; [done|apply last_snoc|].
  rewrite pyplots_app. cbn. by rewrite app_nil_r.
Qed.

Lemma text_answer_has_no_chart_witness :
  let w2 := snd (attempt sample_env sample_runnable "media" loaded_world) in
  let w' := world_after
    (handle_chat_interaction sample_env sample_runnable (Some "media")) loaded_world in
  messages (session_state w') =
    Some ([] ++ [HumanMessage "media"; AIMessage "A média é 11.00." ∅]) ∧
  last (ui w') = Some (st_markdown "A média é 11.00.") ∧
  pyplots (ui w') = pyplots (ui w2).
Proof.
  intros w2.
  apply (text_answer_has_no_chart sample_env sample_runnable "media"
           "A média é 11.00." [] loaded_world w2 0 (snd (plt_gcf (plt w2))));
    vm_compute; reflexivity.
Defined.

(** ** What the next question does to a chart *)

Lemma before_invoke_plt (q : string) (w : World) :
  plt (before_invoke q w) = plt_clf (plt w).
Proof.
  unfold before_invoke. cbn [plt set_plt]. f_equal.
  assert (H : keeps (same plt)
            (messages_append (HumanMessage q);; show (st_chat_message "user");;
             show (st_markdown q);; show (st_chat_message "assistant"))).
  { keeps_with ltac:(reflexivity).
    apply keeps_messages_append; first [exact _|reflexivity]. }
  apply H.
Qed.

(** An agent call leaves [pyplot] as the plotting calls of the agent's code
    leave it. *)
Lemma invoke_plt (E : Env) (a : RunnableWithMessageHistory) (q sid : string) (w : World) :
  let w' := world_after (invoke E a q sid) w in
  plt w' = plt w ∨
  ∃ past d, plt w' = run_ops (plot_ops (agent_executor E (runnable a)
                                          (mkAgentInput q past d))) (plt w).
Proof.
  intros w'. subst w'. unfold world_after at 1 2. rewrite invoke_run.
  unfold world_after. rewrite get_session_history_run.
  cbn [store set_calls histories].
  destruct (store w !! sid) as [h0|]; cbn [snd histories set_store set_histories];
    (match goal with |- context [match ?x !! ?i with _ => _ end] =>
       destruct (x !! i) as [past|] end; [|by left]);
    (destruct (frames w !! agent_df (runnable a)) as [d|]; [|by left]);
    right; exists past, d; by destruct (outcome _).
Qed.

Lemma plt_clf_current (p : Pyplot) (f : nat) :
  last (open_figs p) = Some f →
  plt_clf p = mkPyplot (<[f := []]> (fig_heap p)) (open_figs p).
Proof. intros H. unfold plt_clf, plt_gcf. by rewrite H. Qed.

Lemma get_axes_cleared (heap : list (list (list string))) (open : list nat) (f : nat) :
  get_axes f (mkPyplot (<[f := []]> heap) open) = [].
Proof.
  unfold get_axes. cbn. destruct (decide (f < length heap)) as [Hlt|Hge].
  - by rewrite list_lookup_insert_eq.
  - rewrite list_insert_ge by lia. rewrite lookup_ge_None_2 by lia. done.
Qed.

(** X9: the next question wipes the chart of the answer before it.  If the
    figure attached to earlier answers is still pyplot's current figure, as
    it is right after the answer that drew it, and the agent's code draws
    nothing for the new question, then after [handle_chat_interaction] the
    earlier messages are still in the transcript with that figure attached,
    but the figure has no axes left: [plt.clf()] cleared the attached object
    itself.  The new answer carries no figure. *)
Theorem next_question_clears_the_chart (E : Env) (a : RunnableWithMessageHistory)
    (q : string) (ms : list Message) (f : nat) (w : World) :
  truthy q = true →
  messages (session_state w) = Some ms →
  last (open_figs (plt w)) = Some f →
  (∀ past d, plot_ops (agent_executor E (runnable a) (mkAgentInput q past d)) = []) →
  let w' := world_after (handle_chat_interaction E a (Some q)) w in
  get_axes f (plt w') = [] ∧
  ∃ answer,
    messages (session_state w') = Some (ms ++ [HumanMessage q; answer]) ∧
    plot_of answer = None.
Proof.
  intros Ht Hms Hcur Hquiet w'.
  destruct (handle_chat_interaction_run E a q ms w Ht Hms)
    as (_ & Hs & _ & _ & _ & _ & _ & Hplt).
  fold w' in Hs, Hplt.
  set (cleared := mkPyplot (<[f := []]> (fig_heap (plt w))) (open_figs (plt w))).
  assert (Hatt : plt (snd (attempt E a q w)) = cleared).
  { unfold attempt. rewrite run_bind, the_session_id_run.
    pose proof (before_invoke_plt q w) as Hb. rewrite (plt_clf_current _ f Hcur) in Hb.
    destruct (session_id (session_state (before_invoke q w))) as [sid|]; [|exact Hb].
    destruct (invoke_plt E a q sid (before_invoke q w)) as [H|(past & d & H)];
      unfold world_after in H; rewrite H; [exact Hb|].
    rewrite Hquiet. exact Hb. }
  assert (Hgcf : plt_gcf cleared = (f, cleared)).
  { unfold plt_gcf. subst cleared. cbn [open_figs]. by rewrite Hcur. }
  split.
  - rewrite Hplt, Hatt, Hgcf. destruct (fst (attempt E a q w)); apply get_axes_cleared.
  - exists (reply E a q w). split; [by rewrite Hs|].
    unfold reply. destruct (attempt E a q w) as [[e|out] w2]; [done|].
    cbn [snd] in Hatt. rewrite Hatt, Hgcf.
    subst cleared. by rewrite get_axes_cleared.
Qed.

Lemma next_question_clears_the_chart_witness :
  let w := world_after
    (handle_chat_interaction sample_env sample_runnable (Some "histograma")) loaded_world in
  let w' := world_after
    (handle_chat_interaction sample_env sample_runnable (Some "media")) w in
  get_axes 0 (plt w') = [] ∧
  ∃ answer,
    messages (session_state w') =
      Some ([HumanMessage "histograma"; AIMessage "Segue o histograma." {["plot" := 0]}]
            ++ [HumanMessage "media"; answer]) ∧
    plot_of answer = None.
Proof.
  intros w.
  apply (next_question_clears_the_chart sample_env sample_runnable "media" _ 0 w);
    vm_compute; reflexivity.
Defined.

Lemma plt_gcf_current (p p' : Pyplot) (f : nat) :
  plt_gcf p = (f, p') → last (open_figs p') = Some f.
Proof.
  unfold plt_gcf, plt_figure. destruct (last (open_figs p)) as [f0|] eqn:Hl.
  - intros [= <- <-]. exact Hl.
  - intros [= <- <-]. cbn. apply last_snoc.
Qed.

(** Right after an answer with a chart, the attached figure is pyplot's
    current figure: the premise of X9 holds then. *)
Lemma answered_chart_is_current (E : Env) (a : RunnableWithMessageHistory)
    (q output : string) (ms : list Message) (w w2 : World) (fig : nat) (p : Pyplot) :
  truthy q = true →
  messages (session_state w) = Some ms →
  attempt E a q w = (inr output, w2) →
  plt_gcf (plt w2) = (fig, p) →
  last (open_figs (plt (world_after (handle_chat_interaction E a (Some q)) w))) = Some fig.
Proof.
  intros Ht Hms Hatt Hg.
  destruct (handle_chat_interaction_run E a q ms w Ht Hms)
    as (_ & _ & _ & _ & _ & _ & _ & Hplt).
  rewrite Hplt, Hatt. cbn [fst snd]. rewrite Hg. cbn [snd].
  by eapply plt_gcf_current.
Qed.

(** ** The history the agent is given *)

(** With no entry for the session in [store], the agent is called with an
    empty [chat_history]. *)
Lemma invoke_without_entry (E1 E2 : Env) (a : RunnableWithMessageHistory)
    (q sid : string) (w : World) :
  (∀ ag i, chat_history i = [] → agent_executor E1 ag i = agent_executor E2 ag i) →
  store w !! sid = None →
  invoke E1 a q sid w = invoke E2 a q sid w.
Proof.
  intros Hagree Hs. rewrite !invoke_run. cbn zeta.
  unfold world_after. rewrite get_session_history_run.
  cbn [store set_calls histories]. rewrite Hs. cbn [snd histories set_histories set_store default].
  rewrite lookup_app_r by lia. rewrite Nat.sub_diag. cbn [lookup list_lookup].
  destruct (frames w !! agent_df (runnable a)) as [d|]; [|done].
  by rewrite (Hagree (runnable a) (mkAgentInput q [] d) eq_refl).
Qed.

Lemma handle_chat_interaction_without_entry (E1 E2 : Env)
    (a : RunnableWithMessageHistory) (p : option string) (w : World) :
  (∀ ag i, chat_history i = [] → agent_executor E1 ag i = agent_executor E2 ag i) →
  store w = ∅ →
  handle_chat_interaction E1 a p w = handle_chat_interaction E2 a p w.
Proof.
  intros Hagree Hs. unfold handle_chat_interaction.
  destruct p as [q|]; [|done]. destruct (truthy q); [|done].
  rewrite !run_bind, messages_append_run.
  destruct (messages (session_state w)) as [ms|]; [|done].
  run_quiet. rewrite !run_try_except. run_quiet.
  destruct (session_id (session_state w)) as [sid|]; run_quiet; [|done].
  rewrite (invoke_without_entry E1 E2 a q sid _ Hagree); [done|].
  cbn. rewrite Hs. apply lookup_empty.
Qed.

Lemma main_without_entries (E1 E2 : Env) (inp : Inputs) (w : World) :
  (∀ f, pd_read_csv E1 f = pd_read_csv E2 f) →
  (∀ llm, llm_error E1 llm = llm_error E2 llm) →
  (∀ ag i, chat_history i = [] → agent_executor E1 ag i = agent_executor E2 ag i) →
  store w = ∅ →
  main E1 inp w = main E2 inp w.
Proof.
  intros Hcsv Hllm Hagree Hs. unfold main. run_quiet. eval_sidebar_page. run_quiet.
  rewrite initialize_session_state_world.
  destruct (truthy (entered_key inp)); cbn [negb]; run_quiet; [|done].
  destruct (file_uploader inp) as [f|]; [|done].
  unfold the_messages, initialized. run_quiet.
  eval_show_messages_page. run_quiet. rewrite !load_csv_run, Hcsv. cbn zeta.
  destruct (pd_read_csv E2 f) as [e|d]; run_quiet; [done|].
  destruct (df_loaded (session_state w)) as [[|]|]; cbn [default negb id]; run_quiet;
    rewrite !run_try_except, !run_bind, !get_llm_run; cbn zeta; rewrite Hllm;
    (destruct (llm_error E2 _); [done|]);
    unfold initialize_agent, record_call; run_quiet;
    (rewrite (handle_chat_interaction_without_entry E1 E2 _ _ _ Hagree); [done|]);
    exact Hs.
Qed.

(** X14: the agent never sees an earlier turn.  Every run of the script
    starts with an empty [store], so the history fetched for the session is
    created empty and the agent is called with an empty [chat_history]: two
    agents that behave alike on an empty history give the same run of the
    script, from any state of the process, however they differ when given
    earlier turns. *)
Theorem agent_never_sees_earlier_turns (E1 E2 : Env) (inp : Inputs) (w : World) :
  (∀ f, pd_read_csv E1 f = pd_read_csv E2 f) →
  (∀ llm, llm_error E1 llm = llm_error E2 llm) →
  (∀ ag i, chat_history i = [] → agent_executor E1 ag i = agent_executor E2 ag i) →
  script_run E1 inp w = script_run E2 inp w.
Proof.
  intros Hcsv Hllm Hagree.
  unfold script_run. rewrite !run_bind, !run_modify, !run_bind.
  destruct (reset_clicked inp) as [now|].
  - rewrite clear_chat_history_run, !run_bind, !run_modify.
    by apply main_without_entries.
  - cbn [ret mret M_ret]. rewrite !run_bind, !run_modify.
    by apply main_without_entries.
Qed.

Lemma agent_never_sees_earlier_turns_witness :
  let w := world_after (script_run sample_env (ask (Some "media"))) fresh_world in
  script_run sample_env (ask (Some "media")) w =
  script_run recalling_env (ask (Some "media")) w.
Proof.
  intros w.
  apply (agent_never_sees_earlier_turns sample_env recalling_env (ask (Some "media")) w).
  - reflexivity.
  - reflexivity.
  - intros ag i Hi. simpl. unfold recalling_agent. rewrite Hi. reflexivity.
Defined.

(** ** One invocation for one question *)

Lemma invocations_app (a b : list Call) :
  invocations (a ++ b) = invocations a ++ invocations b.
Proof. induction a as [|[] a IH]; cbn; by rewrite ?IH. Qed.

Lemma invoke_calls (E : Env) (a : RunnableWithMessageHistory) (q sid : string) (w : World) :
  calls (world_after (invoke E a q sid) w) = calls w ++ [call_invoke sid q].
Proof.
  unfold world_after at 1. rewrite invoke_run.
  unfold world_after. rewrite get_session_history_run.
  cbn [store set_calls histories].
  destruct (store w !! sid) as [h0|]; cbn [snd histories set_store set_histories];
    (match goal with |- context [match ?x !! ?i with _ => _ end] =>
       destruct (x !! i) as [past|] end; [|done]);
    (destruct (frames w !! agent_df (runnable a)) as [d|]; [|done]);
    by destruct (outcome _).
Qed.

Lemma before_invoke_calls (q : string) (w : World) :
  calls (before_invoke q w) = calls w.
Proof.
  unfold before_invoke. cbn [calls set_plt].
  assert (H : keeps (same calls)
            (messages_append (HumanMessage q);; show (st_chat_message "user");;
             show (st_markdown q);; show (st_chat_message "assistant"))).
  { keeps_with ltac:(reflexivity).
    apply keeps_messages_append; first [exact _|reflexivity]. }
  apply H.
Qed.

(** Handling a submitted question calls the agent once, under the
    identifier of the session and with the question as input. *)
Lemma handle_chat_interaction_calls (E : Env) (a : RunnableWithMessageHistory)
    (q sid : string) (ms : list Message) (w : World) :
  truthy q = true →
  messages (session_state w) = Some ms →
  session_id (session_state w) = Some sid →
  calls (world_after (handle_chat_interaction E a (Some q)) w)
  = calls w ++ [call_invoke sid q].
Proof.
  intros Ht Hms Hsid.
  destruct (handle_chat_interaction_run E a q ms w Ht Hms)
    as (_ & _ & _ & _ & _ & Hc & _).
  rewrite Hc, (attempt_with_session E a q sid w Hsid) by eauto.
  pose proof (invoke_calls E a q sid (before_invoke q w)) as H.
  unfold world_after in H. by rewrite H, before_invoke_calls.
Qed.

Lemma main_reaches_the_chat_calls (E : Env) (inp : Inputs) (q : string) (w : World) :
  asks E inp q →
  ∃ wpre a handler,
    messages (session_state wpre) = Some (default [] (messages (session_state w))) ∧
    session_id (session_state wpre) =
      Some (default ("session_" +:+ clock inp) (session_id (session_state w))) ∧
    invocations (calls wpre) = invocations (calls w) ∧
    main E inp w = try_except (handle_chat_interaction E a (Some q)) handler wpre.
Proof.
  intros (Hkey & (f & d & Hfile & Hparse) & Hllm & Hq & Ht).
  main_to_load Hkey Hfile. rewrite Hparse. cbn zeta. run_quiet.
  destruct (df_loaded (session_state w)) as [[|]|]; cbn [default negb id]; run_quiet;
    rewrite run_try_except, run_bind, get_llm_run; cbn zeta; rewrite Hllm; run_quiet;
    unfold initialize_agent, record_call; run_quiet; rewrite Hq;
    eexists _, _, _; (split_and!; [| | |symmetry; apply run_try_except]);
    cbn; rewrite ?invocations_app; cbn; rewrite ?app_nil_r; reflexivity.
Qed.

(** X15: a run of [main] in which a question is submitted invokes the
    agent exactly once, with the question as input and under the identifier
    of the session (the one just created, for a new session). *)
Theorem one_invocation_per_question (E : Env) (inp : Inputs) (q : string) (w : World) :
  asks E inp q →
  invocations (calls (world_after (main E inp) w)) =
    invocations (calls w) ++
    [(default ("session_" +:+ clock inp) (session_id (session_state w)), q)].
Proof.
  intros Hasks.
  destruct (main_reaches_the_chat_calls E inp q w Hasks)
    as (wpre & a & handler & Hms & Hsid & Hinv & Hmain).
  destruct Hasks as (_ & _ & _ & _ & Ht).
  pose proof (handle_chat_interaction_calls E a q _ _ wpre Ht Hms Hsid) as Hcalls.
  destruct (handle_chat_interaction_run E a q _ wpre Ht Hms) as (Hr & _).
  unfold result_of, world_after in *. rewrite Hmain, run_try_except.
  destruct (handle_chat_interaction E a (Some q) wpre) as [r W']. cbn in Hr, Hcalls.
  subst r. cbn [snd]. rewrite Hcalls, invocations_app, Hinv. reflexivity.
Qed.

Lemma one_invocation_per_question_witness :
  invocations (calls (world_after (main sample_env (ask (Some "media"))) fresh_world)) =
    invocations (calls fresh_world) ++
    [(default ("session_" +:+ clock (ask (Some "media")))
        (session_id (session_state fresh_world)), "media")].
Proof.
  apply (one_invocation_per_question sample_env (ask (Some "media")) "media" fresh_world).
  unfold asks. split_and!; try reflexivity.
  exists sample_csv, sample_frame. split; reflexivity.
Defined.

Lemma main_without_question_invocations (E : Env) (inp : Inputs) :
  no_question inp → keeps (same (λ w, invocations (calls w))) (main E inp).
Proof.
  intros Hno. unfold main, handle_chat_interaction.
  assert (Hload : ∀ f, keeps (same (λ w, invocations (calls w))) (load_csv E f)).
  { intros f w. unfold world_after, same. rewrite load_csv_run. cbn zeta.
    destruct (pd_read_csv E f); cbn; rewrite invocations_app; cbn;
      by rewrite app_nil_r. }
  assert (Hllm : ∀ k, keeps (same (λ w, invocations (calls w))) (get_llm E k)).
  { intros k w. unfold world_after, same. rewrite get_llm_run. cbn zeta.
    destruct (llm_error E _); cbn; rewrite invocations_app; cbn;
      by rewrite app_nil_r. }
  assert (Hagent : ∀ llm df, keeps (same (λ w, invocations (calls w)))
                               (initialize_agent llm df)).
  { intros llm df w. unfold world_after, same, initialize_agent, record_call.
    run_quiet. rewrite invocations_app. cbn. by rewrite app_nil_r. }
  destruct Hno as [Hq | Hq]; rewrite Hq; rewrite ?truthy_empty;
  repeat first
    [ apply keeps_render_sidebar; first [exact _|done]
    | apply keeps_initialize_session_state; first [exact _|done]
    | apply keeps_the_messages; first [exact _|done]
    | apply keeps_show_messages; first [exact _|done]
    | apply Hload
    | apply Hllm
    | apply Hagent
    | progress keeps_with ltac:(reflexivity) ].
Qed.

(** X17: a run of the script in which nothing is submitted in the chat box
    invokes the agent not at all, whatever the state of the session and
    whether or not the reset button was pressed. *)
Theorem idle_run_invokes_nothing (E : Env) (inp : Inputs) (w : World) :
  no_question inp →
  invocations (calls (world_after (script_run E inp) w)) = invocations (calls w).
Proof.
  intros Hno. unfold world_after, script_run.
  rewrite run_bind, run_modify, run_bind.
  destruct (reset_clicked inp) as [now|].
  - rewrite clear_chat_history_run, run_bind, run_modify.
    match goal with |- context [main E inp ?W] =>
      apply (main_without_question_invocations E inp Hno W) end.
  - cbn [ret mret M_ret]. rewrite run_bind, run_modify.
    match goal with |- context [main E inp ?W] =>
      apply (main_without_question_invocations E inp Hno W) end.
Qed.

Lemma idle_run_invokes_nothing_witness :
  let w := world_after (script_run sample_env (ask (Some "media"))) fresh_world in
  invocations (calls (world_after (script_run sample_env (ask None)) w))
  = invocations (calls w).
Proof.
  intros w. apply (idle_run_invokes_nothing sample_env (ask None) w). by left.
Defined.

(** ** The DataFrame through a whole run of [main] *)

Lemma insert_at_end {A} (l : list A) (x y : A) :
  <[length l := y]> (l ++ [x]) = l ++ [y].
Proof.
  induction l as [|a l IH]; [done|]. cbn. f_equal. exact IH.
Qed.

(** What a run of [main] leaves in the DataFrame objects.  When the file
    is not read or does not parse, they are as before.  When it parses to
    [d], they are as before and one object is added, the one [load_csv]
    returned: it holds [d], unless a question was submitted and the agent
    ran, in which case it holds what the code run by the agent left in it. *)
Lemma main_frames (E : Env) (inp : Inputs) (w : World) :
  let w' := world_after (main E inp) w in
  (frames w' = frames w ∧
   (truthy (entered_key inp) = false ∨ file_uploader inp = None ∨
    ∃ f e, file_uploader inp = Some f ∧ pd_read_csv E f = inl e)) ∨
  ∃ f d,
    truthy (entered_key inp) = true ∧
    file_uploader inp = Some f ∧
    pd_read_csv E f = inr d ∧
    (frames w' = frames w ++ [d] ∨
     ∃ q past a,
       chat_input inp = Some q ∧
       agent_df (runnable a) = length (frames w) ∧
       frames w' =
         frames w ++ [df_left (agent_executor E (runnable a) (mkAgentInput q past d))]).
Proof.
  intros w'. subst w'. unfold world_after.
  destruct (truthy (entered_key inp)) eqn:Hkey.
  2: { left. split; [|by left]. unfold main. run_quiet. eval_sidebar_page. run_quiet.
       rewrite initialize_session_state_world, Hkey. cbn [negb]. by run_quiet. }
  destruct (file_uploader inp) as [f|] eqn:Hfile.
  2: { left. split; [|by right; left]. unfold main. run_quiet. eval_sidebar_page.
       run_quiet. rewrite initialize_session_state_world, Hkey, Hfile. cbn [negb].
       by run_quiet. }
  destruct (pd_read_csv E f) as [e|d] eqn:Hparse.
  { left. split; [|right; right; eauto].
    main_to_load Hkey Hfile. rewrite Hparse. cbn zeta. by run_quiet. }
  right. exists f, d. split_and!; try done.
  main_to_load Hkey Hfile. rewrite Hparse. cbn zeta. run_quiet.
  destruct (df_loaded (session_state w)) as [[|]|]; cbn [default negb id]; run_quiet;
    rewrite run_try_except, run_bind, get_llm_run; cbn zeta;
    (destruct (llm_error E _); run_quiet; [by left|]);
    unfold initialize_agent, record_call; run_quiet;
    match goal with |- context [handle_chat_interaction E ?a ?p ?W] =>
      pose proof (handle_chat_interaction_frames E a p W) as Hf;
      unfold world_after in Hf; cbn zeta in Hf;
      destruct (handle_chat_interaction E a p W) as [[e|[]] W'];
      cbn [fst snd] in *; run_quiet;
      (destruct Hf as [Hf|(q & past & d' & Hq & Hd & Hf)]; rewrite Hf;
        cbn [frames set_frames set_calls set_ui set_session_state];
        [by left|]);
      right; exists q, past, a; (split; [exact Hq|]);
      (split; [reflexivity|]);
      cbn [frames set_frames set_calls set_ui set_session_state runnable agent_df]
        in Hd |- *;
      rewrite lookup_app_r in Hd by lia; rewrite Nat.sub_diag in Hd;
      injection Hd as <-; by rewrite insert_at_end
    end.
Qed.

(** C6, as the code has it: no statement of the script writes to a
    DataFrame.  The reset, the construction of the client and of the agent,
    the rendering of the sidebar and of the transcript leave every DataFrame
    object as it is.  Loading a file that parses adds one object, holding
    what was parsed, and returns it; the others are as before.  Chat
    handling leaves the objects as they are except for the one the agent was
    built on, which afterwards holds what it held before or what the code
    run by the agent left in it.  And after a whole run of [main] the objects
    that were there are as before, and the one that [load_csv] returned in
    the run holds what was parsed, unless a question was submitted and the
    agent ran, in which case it holds what the code run by the agent left in
    it; in a run without a question it holds what was parsed. *)
Theorem frames_change_only_by_the_agent :
  (∀ now w, frames (world_after (clear_chat_history now) w) = frames w) ∧
  (∀ E key w, frames (world_after (get_llm E key) w) = frames w) ∧
  (∀ llm df w, frames (world_after (initialize_agent llm df) w) = frames w) ∧
  (∀ inp w, frames (world_after (render_sidebar inp) w) = frames w) ∧
  (∀ ms w, frames (world_after (show_messages ms) w) = frames w) ∧
  (∀ E f w,
     match pd_read_csv E f with
     | inr d =>
         result_of (load_csv E f) w = inr (Some (length (frames w))) ∧
         frames (world_after (load_csv E f) w) = frames w ++ [d]
     | inl _ =>
         result_of (load_csv E f) w = inr None ∧
         frames (world_after (load_csv E f) w) = frames w
     end) ∧
  (∀ E a prompt w,
     let w' := world_after (handle_chat_interaction E a prompt) w in
     frames w' = frames w ∨
     ∃ q past d,
       prompt = Some q ∧
       frames w !! agent_df (runnable a) = Some d ∧
       frames w' = <[agent_df (runnable a) :=
                       df_left (agent_executor E (runnable a) (mkAgentInput q past d))]>
                     (frames w)) ∧
  (∀ E inp w,
     let w' := world_after (main E inp) w in
     (frames w' = frames w ∧
      (truthy (entered_key inp) = false ∨ file_uploader inp = None ∨
       ∃ f e, file_uploader inp = Some f ∧ pd_read_csv E f = inl e)) ∨
     ∃ f d,
       truthy (entered_key inp) = true ∧
       file_uploader inp = Some f ∧
       pd_read_csv E f = inr d ∧
       (frames w' = frames w ++ [d] ∨
        ∃ q past a,
          chat_input inp = Some q ∧
          agent_df (runnable a) = length (frames w) ∧
          frames w' =
            frames w ++
            [df_left (agent_executor E (runnable a) (mkAgentInput q past d))])) ∧
  (∀ E inp w f d,
     truthy (entered_key inp) = true →
     file_uploader inp = Some f →
     pd_read_csv E f = inr d →
     chat_input inp = None →
     frames (world_after (main E inp) w) = frames w ++ [d]).
Proof.
  split_and!.
  - intros now w.
    by apply (keeps_clear_chat_history (same frames)).
  - intros E key w. by apply (keeps_get_llm (same frames)).
  - intros llm df w. by apply (keeps_initialize_agent (same frames)).
  - intros inp w. by apply (keeps_render_sidebar (same frames)).
  - intros ms w. by apply (keeps_show_messages (same frames)).
  - intros E f w. unfold result_of, world_after. rewrite load_csv_run. cbn zeta.
    by destruct (pd_read_csv E f).
  - intros E a prompt w. apply handle_chat_interaction_frames.
  - intros E inp w. apply main_frames.
  - intros E inp w f d Hkey Hfile Hparse Hnone.
    destruct (main_frames E inp w)
      as [[_ [H|[H|(f' & e & Hf' & He)]]]
         |(f' & d' & _ & Hf' & Hd' & [H|(q & past & a & Hq & _)])];
      congruence.
Qed.

(** ** The history kept for the session, run by run *)

Lemma before_invoke_store (q : string) (w : World) :
  store (before_invoke q w) = store w ∧ histories (before_invoke q w) = histories w.
Proof.
  unfold before_invoke. cbn [store histories set_plt].
  assert (H : keeps (same (λ v, (store v, histories v)))
            (messages_append (HumanMessage q);; show (st_chat_message "user");;
             show (st_markdown q);; show (st_chat_message "assistant"))).
  { keeps_with ltac:(reflexivity).
    apply keeps_messages_append; first [exact _|reflexivity]. }
  specialize (H w). unfold same in H. by injection H.
Qed.

(** An agent call made with no entry in [store] files one history, under
    its identifier: the question and the answer when the agent returned,
    nothing when it raised. *)
Lemma invoke_fresh_history (E : Env) (a : RunnableWithMessageHistory)
    (q sid : string) (w : World) :
  store w = ∅ →
  let w' := world_after (invoke E a q sid) w in
  store w' = {[sid := length (histories w)]} ∧
  history_of w' sid =
    match result_of (invoke E a q sid) w with
    | inr out => Some [HumanMessage q; AIMessage out ∅]
    | inl _ => Some []
    end.
Proof.
  intros Hs w'. subst w'. unfold result_of, world_after, history_of.
  rewrite invoke_run. cbn zeta.
  unfold world_after. rewrite get_session_history_run.
  cbn [store set_calls histories]. rewrite Hs, lookup_empty.
  cbn [snd histories set_histories set_store default].
  rewrite lookup_app_r by lia. rewrite Nat.sub_diag. cbn [lookup list_lookup].
  assert (Hnew : (histories w ++ [[]]) !! length (histories w) = Some (@nil Message)).
  { rewrite lookup_app_r by lia. by rewrite Nat.sub_diag. }
  destruct (frames w !! agent_df (runnable a)) as [d|]; cbn [fst snd store histories
    set_store set_histories set_frames set_plt set_calls].
  2: { split; [done|]. rewrite lookup_insert_eq. cbn. exact Hnew. }
  destruct (outcome _) as [e|out]; cbn [fst snd store histories add_messages modify
    set_store set_histories set_frames set_plt set_calls].
  - split; [done|]. rewrite lookup_insert_eq. cbn. exact Hnew.
  - split; [done|]. rewrite lookup_insert_eq. cbn.
    rewrite list_lookup_alter_eq, Hnew. done.
Qed.

(** After a run of the script in which [q] is asked, [store] holds one
    history, that of the session, and it holds the question and answer of
    this run alone, or nothing if the agent raised: whatever was asked in
    earlier runs is not in it. *)
Lemma script_run_history (E : Env) (inp : Inputs) (q : string) (w : World) (sid : string) :
  asks E inp q →
  let w' := world_after (script_run E inp) w in
  history_of w' sid = None ∨
  history_of w' sid = Some [] ∨
  ∃ out, history_of w' sid = Some [HumanMessage q; AIMessage out ∅].
Proof.
  intros Hasks w'. subst w'.
  destruct (script_run_starts_main_with_empty_store E inp w) as (w0 & Hempty & Hrun).
  destruct (main_reaches_the_chat E inp q w0 Hasks)
    as (wpre & a & handler & Hms & Hsid & Hstore & Hmain).
  destruct Hasks as (_ & _ & _ & _ & Ht).
  destruct (handle_chat_interaction_run E a q _ wpre Ht Hms)
    as (Hr & _ & Hst & Hhs & _).
  unfold world_after at 1 2 3. rewrite Hrun, Hmain, run_try_except.
  unfold result_of, world_after in Hr, Hst, Hhs.
  destruct (handle_chat_interaction E a (Some q) wpre) as [r W']. cbn in Hr, Hst, Hhs.
  subst r. cbn [snd]. unfold history_of. rewrite Hst, Hhs.
  rewrite (attempt_with_session E a q _ wpre Hsid) by eauto.
  destruct (before_invoke_store q wpre) as [Hbs Hbh].
  destruct (invoke_fresh_history E a q
              (default ("session_" +:+ clock inp) (session_id (session_state w0)))
              (before_invoke q wpre)) as [Hs' Hh'].
  { by rewrite Hbs, Hstore. }
  unfold world_after, result_of, history_of in Hs', Hh'.
  destruct (decide (sid = default ("session_" +:+ clock inp)
                            (session_id (session_state w0)))) as [->|Hne].
  - rewrite Hh'. destruct (fst _) as [e|out]; eauto.
  - left. rewrite Hs', lookup_singleton_ne by done. done.
Qed.

(** C5 fails for the history that [store] keeps for the session, from
    which the agent is given its context.  Two questions are asked in two
    successive runs, with no reset.  Both are in [st.session_state.messages]
    afterwards, in their order; but the history of the session, which held
    the first question and its answer after the first run, holds the second
    question and its answer alone after the second: [store = {}] was executed
    again in between.  An agent that would refer to earlier turns if it were
    given any answers the second question as if it were the first. *)
Theorem first_question_is_lost_from_the_history :
  let sid := "session_1700000000.5" in
  let w1 := world_after (script_run recalling_env (ask (Some "media"))) fresh_world in
  let w2 := world_after (script_run recalling_env (ask (Some "histograma"))) w1 in
  let w3 := world_after (script_run recalling_env (ask (Some "media"))) w2 in
  session_id (session_state w3) = Some sid ∧
  messages (session_state w2) =
    Some [HumanMessage "media"; AIMessage "A média é 11.00." ∅;
          HumanMessage "histograma"; AIMessage "Segue o histograma." {["plot" := 0]}] ∧
  history_of w1 sid = Some [HumanMessage "media"; AIMessage "A média é 11.00." ∅] ∧
  history_of w2 sid =
    Some [HumanMessage "histograma"; AIMessage "Segue o histograma." ∅] ∧
  history_of w3 sid = Some [HumanMessage "media"; AIMessage "A média é 11.00." ∅].
Proof. vm_compute. split_and!; reflexivity. Qed.
